(** * The HDB resale agent: tool implementations and agent loop

    A shallow embedding of [final.py]: the two tools
    ([execute_sql_query], [execute_visualisation_code] with its helper
    [generate_visualisation]) and the tool-calling loop [main_agent].

    Python values are an inductive type [pyval]; a dict is an association
    list in insertion order.  A Python function that may raise returns a
    [res]; effects (files written, identifiers drawn, calls made to the
    hosted models and to DuckDB) are threaded through a [World].  The
    hosted models, the SQL engine, the interpreter behind [exec], pandas,
    plotly and the json module are external: they are the fields of an
    [Env] record, and every theorem quantifies over them.  The engine
    works on the files of the process; the generated code, run in the
    process, can do all the program can: write files, draw identifiers,
    call the models and DuckDB. *)

From Stdlib Require Import String Ascii List ZArith Lia Bool.
From stdpp Require Import base option gmap strings pretty.
Import ListNotations.

Local Open Scope string_scope.
Local Open Scope list_scope.

(** ** Python values and exceptions *)

#[warnings="-register-all"] Inductive pyval : Type :=
| VNone
| VBool (b : bool)
| VInt (z : Z)
| VStr (s : string)
| VList (l : list pyval)                 (* lists and tuples *)
| VDict (d : list (string * pyval))      (* dict with string keys *)
| VOpaque (repr : string) (truth : bool). (* any other object (float, Decimal,
                                             date, module, DataFrame, Figure):
                                             its type and its truth value *)

Abbreviation dict := (list (string * pyval)).

(** An exception carries its class name and [str(e)].  [exn_is_Exception]
    says whether the class derives from [Exception]; [SystemExit] and
    [KeyboardInterrupt] do not, so [except Exception] lets them through.
    For the exceptions of the interpreter and of the libraries [str(e)] is
    the message [exn_str].  A class defined by generated code can have a
    [__str__] that raises: [exn_str_raises] is then the exception that
    [str(e)] ends in. *)
#[warnings="-register-all"] Inductive exn : Type := mkExn {
  exn_is_Exception : bool;
  exn_type : string;
  exn_str : string;
  exn_str_raises : option exn
}.

Inductive res (A : Type) : Type :=
| Ret (a : A)
| Raise (e : exn).
Arguments Ret {A} a.
Arguments Raise {A} e.

Definition KeyError (k : string) : exn :=
  mkExn true "KeyError" ("'" +:+ k +:+ "'") None.
Definition TypeError (m : string) : exn := mkExn true "TypeError" m None.
Definition AttributeError (m : string) : exn :=
  mkExn true "AttributeError" m None.

(** [str(e)]. *)
Definition str_exn (e : exn) : res string :=
  match exn_str_raises e with
  | Some e' => Raise e'
  | None => Ret (exn_str e)
  end.

(** [v is None]. *)
Definition is_None (v : pyval) : bool :=
  match v with VNone => true | _ => false end.

(** Truth value of an object, as [if x:] and [not x] test it: [0.0] and
    [Decimal(0)] are false as [0] is. *)
Definition truthy (v : pyval) : bool :=
  match v with
  | VNone => false
  | VBool b => b
  | VInt z => negb (z =? 0)%Z
  | VStr s => negb (String.eqb s "")
  | VList l => match l with [] => false | _ => true end
  | VDict d => match d with [] => false | _ => true end
  | VOpaque _ truth => truth
  end.

Fixpoint dict_lookup (k : string) (d : dict) : option pyval :=
  match d with
  | [] => None
  | (k', v) :: d' => if String.eqb k k' then Some v else dict_lookup k d'
  end.

Definition type_name (v : pyval) : string :=
  match v with
  | VNone => "NoneType"
  | VBool _ => "bool"
  | VInt _ => "int"
  | VStr _ => "str"
  | VList _ => "list"
  | VDict _ => "dict"
  | VOpaque r _ => r
  end.

(** [v[k]] for a string key [k]. *)
Definition subscript (v : pyval) (k : string) : res pyval :=
  match v with
  | VDict d =>
      match dict_lookup k d with
      | Some x => Ret x
      | None => Raise (KeyError k)
      end
  | VStr _ => Raise (TypeError "string indices must be integers, not 'str'")
  | VList _ => Raise (TypeError "list indices must be integers or slices, not str")
  | _ => Raise (TypeError ("'" +:+ type_name v +:+ "' object is not subscriptable"))
  end.

(** [d.get(k)]: only a dict has the method. *)
Definition py_get (v : pyval) (k : string) : res pyval :=
  match v with
  | VDict d => Ret (default VNone (dict_lookup k d))
  | _ => Raise (AttributeError ("'" +:+ type_name v +:+ "' object has no attribute 'get'"))
  end.

(** A [str] is held as its UTF-8 encoding.  Its length is the number of
    its characters: the bytes that do not continue one. *)
Definition continues_char (c : ascii) : bool :=
  let n := nat_of_ascii c in ((128 <=? n) && (n <? 192))%nat.

Fixpoint str_len (s : string) : nat :=
  match s with
  | EmptyString => 0
  | String c s' => (if continues_char c then 0 else 1) + str_len s'
  end.

(** [len(v)]. *)
Definition py_len (v : pyval) : res nat :=
  match v with
  | VStr s => Ret (str_len s)
  | VList l => Ret (length l)
  | VDict d => Ret (length d)
  | _ => Raise (TypeError ("object of type '" +:+ type_name v +:+ "' has no len()"))
  end.

(** ** String methods used by the code *)

Definition utf8 (bytes : list nat) : string :=
  fold_right (fun n s => String (ascii_of_nat n) s) EmptyString bytes.

(** The characters [str.strip()] removes, those [str.isspace()] holds of:
    U+0009 to U+000D, U+001C to U+0020, U+0085, U+00A0, U+1680, U+2000 to
    U+200A, U+2028, U+2029, U+202F, U+205F and U+3000. *)
Definition WHITESPACE : list string :=
  map utf8
    [[9]; [10]; [11]; [12]; [13]; [28]; [29]; [30]; [31]; [32];
     [194; 133]; [194; 160];
     [225; 154; 128];
     [226; 128; 128]; [226; 128; 129]; [226; 128; 130]; [226; 128; 131];
     [226; 128; 132]; [226; 128; 133]; [226; 128; 134]; [226; 128; 135];
     [226; 128; 136]; [226; 128; 137]; [226; 128; 138];
     [226; 128; 168]; [226; 128; 169]; [226; 128; 175];
     [226; 129; 159];
     [227; 128; 128]].

(** The one of the strings [ws] that [s] starts with, if any. *)
Definition starts_with (ws : list string) (s : string) : option string :=
  find (fun p => String.prefix p s) ws.

(** Drops from the front of [s] every leading occurrence of one of the
    (non-empty) strings [ws].  [skip] counts the bytes of an occurrence
    still to be dropped. *)
Fixpoint drop_leading (ws : list string) (s : string) (skip : nat) : string :=
  match s with
  | EmptyString => EmptyString
  | String _ s' =>
      match skip with
      | S k => drop_leading ws s' k
      | O =>
          match starts_with ws s with
          | Some p => drop_leading ws s' (String.length p - 1)%nat
          | None => s
          end
      end
  end.

Definition lstrip (s : string) : string := drop_leading WHITESPACE s 0.

(** The end of a string is the front of its reversal. *)
Definition rstrip (s : string) : string :=
  String.rev (drop_leading (map String.rev WHITESPACE) (String.rev s) 0).

(** [s.strip()]. *)
Definition strip (s : string) : string := rstrip (lstrip s).

(** [s.replace(old, new)] for a non-empty [old]: occurrences are replaced
    left to right and do not overlap.  [skip] counts the bytes of an
    occurrence still to be dropped; an occurrence of an encoded string
    starts where a character starts. *)
Fixpoint replace_from (old new s : string) (skip : nat) : string :=
  match s with
  | EmptyString => EmptyString
  | String c s' =>
      match skip with
      | S k => replace_from old new s' k
      | O =>
          if String.prefix old s
          then new +:+ replace_from old new s' (String.length old - 1)%nat
          else String c (replace_from old new s' 0)
      end
  end.

Definition str_replace (old new s : string) : string := replace_from old new s 0.

(** [os.path.join(a, b)] on POSIX, for a non-empty [a]. *)
Definition os_path_join (a b : string) : string :=
  if String.prefix "/" b then b
  else if String.prefix "/" (String.rev a) then a +:+ b
  else a +:+ "/" +:+ b.

(** ** Messages of the chat API *)

Record function_call : Type := {
  fn_name : option string;
  fn_arguments : string
}.

Record tool_call : Type := {
  call_id : string;
  call_function : option function_call
}.

(** [response.choices[0].message]. *)
Record assistant_message : Type := {
  msg_content : option string;
  msg_tool_calls : option (list tool_call)
}.

(** The transcript holds plain dicts ([role] and [content], and for a tool
    result the [tool_call_id]) and the SDK's message objects, appended as
    received. *)
Inductive message : Type :=
| Msg (role content : string)
| ToolMsg (tool_call_id content : string)
| AssistantMsg (m : assistant_message).

(** ** The world *)

(** The calls made to the models and to DuckDB.  [EvCode ev] is a call the
    generated code made while [exec] ran it; the other events are calls
    of the program's own statements. *)
Inductive event : Type :=
| EvChat (model : string) (messages : list message)
| EvConnect (path : string)
| EvExecute (sql : pyval)
| EvClose
| EvCode (ev : event).

Record World : Type := mkWorld {
  fs : gmap string string;      (* files on disk: path to content *)
  uuid_next : nat;              (* identifiers drawn so far *)
  trace : list event            (* calls made to the models and to DuckDB *)
}.

Definition set_fs (f : gmap string string) (w : World) : World :=
  mkWorld f (uuid_next w) (trace w).

Definition log (ev : event) (w : World) : World :=
  mkWorld (fs w) (uuid_next w) (trace w ++ [ev]).

(** A DuckDB cursor after [execute]: its [description] (one entry per
    column, the name first), the rows the statement produces, and what
    [fetchmany] raises when the statement left no result set to read. *)
Record cursor : Type := {
  description : option (list (string * pyval));
  cur_rows : list pyval;
  fetch_error : option exn
}.

(** ** The external collaborators *)

Record Env : Type := {
  (* client.chat.completions.create(model=..., messages=...): the answer
     may depend on all that was asked of the collaborators before *)
  chat : list event -> string -> list message -> assistant_message;
  (* duckdb.connect(path) on the files of the process: the error it
     raises, if any, and the files after (a database that is missing is
     created) *)
  duckdb_connect : string -> gmap string string ->
                   option exn * gmap string string;
  (* cursor.execute(sql) on the database at path: the connection is
     read-write, so the statement may change the database and write other
     files (COPY ... TO, EXPORT DATABASE) *)
  duckdb_execute : string -> pyval -> gmap string string ->
                   res cursor * gmap string string;
  (* conn.close(): the files after *)
  duckdb_close : string -> gmap string string -> gmap string string;
  (* json.loads(s), json.dumps(v, indent=...) *)
  json_loads : string -> res pyval;
  json_dumps : option nat -> pyval -> res string;
  (* pd.DataFrame(rows, columns=cols) *)
  pd_DataFrame : pyval -> pyval -> res pyval;
  (* the interpreter behind exec(code, globals, locals), in the world the
     code is run in: the locals after the run or the exception raised, the
     files after, the calls the code made to the models and to DuckDB, and
     the number of identifiers it drew *)
  py_run : string -> dict -> dict -> World ->
           res dict * gmap string string * list event * nat;
  (* fig.to_image(format="png"), fig.to_json() *)
  fig_to_image : pyval -> res string;
  fig_to_json : pyval -> res string;
  (* open(path, "w"): the error it raises, if any *)
  open_error : string -> option exn;
  (* str(uuid.uuid4()), by number of the draw *)
  uuid_source : nat -> string;
  (* traceback.format_exc() in the handler of e *)
  format_exc : exn -> string;
  (* str(v) of a value other than a string, None or a bool *)
  str_other : pyval -> string;
  (* the system prompt, with [schema] of the module [vars] and the
     sentences elided in the source filled in *)
  system_prompt : string;
  (* the expressions elided in the source *)
  elided_instructions : pyval -> res pyval;      (* instructions = ??? *)
  elided_task : pyval -> pyval -> string;        (* {???} in the prompt *)
  elided_insights : assistant_message -> pyval;  (* "insights": ??? *)
  elided_result_df : pyval -> res pyval;         (* ??? if results *)
  elided_visualisation : pyval -> res pyval      (* ??? if viz_result *)
}.

(** ** Computations: state and exceptions *)

Definition M (A : Type) : Type := World -> res A * World.

Definition ret {A} (a : A) : M A := fun w => (Ret a, w).
Definition raise {A} (e : exn) : M A := fun w => (Raise e, w).

Definition bind {A B} (m : M A) (k : A -> M B) : M B :=
  fun w =>
    match m w with
    | (Ret a, w') => k a w'
    | (Raise e, w') => (Raise e, w')
    end.

Definition lift {A} (r : res A) : M A := fun w => (r, w).

Notation "'do' x <- m ; k" := (bind m (fun x => k))
  (at level 10, x name, m at level 100, k at level 200).

(** [try: body except Exception as e: handler(e)]. *)
Definition try_except {A} (body : M A) (handler : exn -> M A) : M A :=
  fun w =>
    match body w with
    | (Ret a, w') => (Ret a, w')
    | (Raise e, w') =>
        if exn_is_Exception e then handler e w' else (Raise e, w')
    end.

Definition emit (ev : event) : M unit := fun w => (Ret tt, log ev w).

(** [str(v)], as an f-string formats a value. *)
Definition py_str (E : Env) (v : pyval) : string :=
  match v with
  | VStr s => s
  | VNone => "None"
  | VBool true => "True"
  | VBool false => "False"
  | _ => str_other E v
  end.

(** ** 1. Setup *)

Definition DB_PATH : string := "database/HDB_data.db".
Definition OUTPUT_DIR : string := "visualisation_outputs".
Definition CODER_MODEL : string := "qwen/qwen-2.5-coder-32b-instruct:free".
Definition AGENT_MODEL : string := "deepseek/deepseek-chat-v3.1:free".

(** ** 4. Tool implementations: the Query Executor *)

Section Tools.
Variable E : Env.

(** The engine at work on the files. *)
Definition engine_connect (path : string) : M unit :=
  fun w =>
    let r := duckdb_connect E path (fs w) in
    (match fst r with Some e => Raise e | None => Ret tt end,
     set_fs (snd r) w).

Definition engine_execute (sql : pyval) : M cursor :=
  fun w =>
    let r := duckdb_execute E DB_PATH sql (fs w) in
    (fst r, set_fs (snd r) w).

Definition engine_close : M unit :=
  fun w => (Ret tt, set_fs (duckdb_close E DB_PATH (fs w)) w).

Definition connect (path : string) : M unit :=
  do _ <- emit (EvConnect path);
  engine_connect path.

(** [c = conn.cursor(); c.execute(sql)]. *)
Definition cursor_execute (sql : pyval) : M cursor :=
  do _ <- emit (EvExecute sql);
  engine_execute sql.

(** [c.fetchmany(size)]. *)
Definition fetchmany (size : nat) (c : cursor) : res (list pyval) :=
  match fetch_error c with
  | Some e => Raise e
  | None => Ret (firstn size (cur_rows c))
  end.

(** [conn.close()]. *)
Definition close : M unit :=
  do _ <- emit EvClose;
  engine_close.

Definition sql_ok (cols : list pyval) (rows : list pyval) : pyval :=
  VDict [("result_df", VDict [("columns", VList cols); ("rows", VList rows)])].

Definition sql_error (m : string) : pyval := VDict [("error", VStr m)].

(** [[d[0] for d in c.description] if c.description else []]. *)
Definition column_names (c : cursor) : list pyval :=
  match description c with
  | Some ds => map (fun d => VStr (fst d)) ds
  | None => []
  end.

(** What the [try] block can raise is raised by the engine or the
    interpreter, whose exceptions have their message for [str(e)]. *)
Definition sql_handler (e : exn) : M pyval :=
  ret (sql_error ("Error executing SQL query: " +:+ exn_str e)).

Definition execute_sql_query (sql_query : pyval) : M pyval :=
  if negb (truthy sql_query) then
    ret (sql_error "No SQL query provided")
  else
    try_except
      (do _ <- connect DB_PATH;
       do c <- cursor_execute sql_query;
       let cols := column_names c in
       do rows <- lift (fetchmany 1000 c);
       do _ <- close;
       ret (sql_ok cols rows))
      sql_handler.

(** [json.dumps(v, indent=...)].  The three constants are written out; the
    text of numbers, strings and containers, and the [TypeError] for an
    object that cannot be serialized, come from the json module. *)
Definition dumps (indent : option nat) (v : pyval) : res string :=
  match v with
  | VNone => Ret "null"
  | VBool true => Ret "true"
  | VBool false => Ret "false"
  | _ => json_dumps E indent v
  end.

(** ** 2. Tool: generate visualisations *)

(** [exec(code, globals, locals)].  Python adds its built-in module to a
    globals dict that has no [__builtins__] key before it runs the code:
    the code is run with [open], [__import__] and the other built-ins in
    reach, in the process: what it writes, draws and asks of the models
    and of DuckDB is done when [exec] returns or raises. *)
Definition BUILTINS : pyval := VOpaque "module" true.

Definition exec_globals (globals : dict) : dict :=
  match dict_lookup "__builtins__" globals with
  | Some _ => globals
  | None => globals ++ [("__builtins__", BUILTINS)]
  end.

Definition exec (code : string) (globals locals : dict) : M dict :=
  fun w =>
    let '(r, files, calls, draws) :=
      py_run E code (exec_globals globals) locals w in
    (r, mkWorld files (uuid_next w + draws) (trace w ++ map EvCode calls)).

Definition uuid4 : M string :=
  fun w => (Ret (uuid_source E (uuid_next w)),
            mkWorld (fs w) (S (uuid_next w)) (trace w)).

(** [open(path, "w")] creates or empties the file; [f.write(data)] fills it. *)
Definition open_w (path : string) : M unit :=
  fun w =>
    match open_error E path with
    | Some e => (Raise e, w)
    | None => (Ret tt, set_fs (<[path := ""]> (fs w)) w)
    end.

Definition write (path data : string) : M unit :=
  fun w => (Ret tt, set_fs (<[path := data]> (fs w)) w).

Definition pd : pyval := VOpaque "module" true.
Definition px : pyval := VOpaque "module" true.
Definition go : pyval := VOpaque "module" true.

(** The namespace handed to [exec] as its locals. *)
Definition local_ns (df : pyval) : dict :=
  [("pd", pd); ("df", df); ("px", px); ("go", go)].

Definition clean_code (python_code : string) : string :=
  strip (str_replace "```" "" (str_replace "```python" "" python_code)).

Definition img_path (result_id : string) : string :=
  os_path_join OUTPUT_DIR (result_id +:+ ".png").

Definition fig_json_path (result_id : string) : string :=
  os_path_join OUTPUT_DIR (result_id +:+ "_fig.json").

Definition viz_success (result_id code path : string) : pyval :=
  VDict [("success", VBool true); ("uuid", VStr result_id);
         ("code", VStr code); ("fig_path", VStr path)].

Definition viz_no_fig : pyval :=
  VDict [("success", VBool false); ("error", VStr "No `fig` variable created.")].

(** The dict of the handler, for [error] the text of [str(e)]. *)
Definition viz_error (error : string) (e : exn) : pyval :=
  VDict [("success", VBool false); ("error", VStr error);
         ("traceback", VStr (format_exc E e)); ("fig_path", VNone)].

Definition viz_exception (e : exn) : pyval := viz_error (exn_str e) e.

(** [except Exception as e: return {...}]: [str(e)] is evaluated first. *)
Definition viz_handler (e : exn) : M pyval :=
  do error <- lift (str_exn e);
  ret (viz_error error e).

(** The [try] block, after the identifier is drawn. *)
Definition generate_visualisation_body (result_id : string)
    (sql_result : pyval) (python_code : string) : M pyval :=
  do rd <- lift (subscript sql_result "result_df");
  do rows <- lift (subscript rd "rows");
  do rd' <- lift (subscript sql_result "result_df");
  do cols <- lift (subscript rd' "columns");
  do df <- lift (pd_DataFrame E rows cols);
  let python_code := clean_code python_code in
  do ns <- exec python_code [] (local_ns df);
  let fig := default VNone (dict_lookup "fig" ns) in
  if is_None fig then ret viz_no_fig
  else
    do img_bytes <- lift (fig_to_image E fig);
    do _ <- open_w (img_path result_id);
    do _ <- write (img_path result_id) img_bytes;
    do _ <- open_w (fig_json_path result_id);
    do js <- lift (fig_to_json E fig);
    do _ <- write (fig_json_path result_id) js;
    ret (viz_success result_id python_code (fig_json_path result_id)).

Definition generate_visualisation_try (sql_result : pyval)
    (python_code : string) : M pyval :=
  do result_id <- uuid4;
  generate_visualisation_body result_id sql_result python_code.

Definition generate_visualisation (sql_result : pyval) (python_code : string)
  : M pyval :=
  try_except (generate_visualisation_try sql_result python_code) viz_handler.

(** ** 4. Tool implementations: the Chart Generator *)

(** One call to the hosted model.  The tool declarations and the
    temperature are fixed per model; they are left to the oracle. *)
Definition chat_create (model : string) (messages : list message)
  : M assistant_message :=
  fun w => (Ret (chat E (trace w) model messages),
            log (EvChat model messages) w).

(** [message.content.strip()]. *)
Definition content_strip (m : assistant_message) : res string :=
  match msg_content m with
  | Some s => Ret (strip s)
  | None => Raise (AttributeError "'NoneType' object has no attribute 'strip'")
  end.

Definition viz_prompt (dumped task : string) : string :=
  "
    Given the following DuckDB SQL query result as a JSON-serializable dict:
    " +:+ dumped +:+ "

    Write a self-contained Python snippet that: " +:+ task +:+ "

    Rules:
    - Data is already in a pandas DataFrame named `df`. Do NOT recreate it manually.
    - Use plotly.express or plotly.graph_objects -- we want interactive diagrams. Assign chart to variable `fig`.
    - Avoid fig.show().
    - Allowed libraries: pandas, plotly, matplotlib.
    - Style: transparent background, white font.
    - ONLY return the code.
    ".

(** The message appended after a failed attempt. *)
Definition fix_request (error : pyval) (code : string) : message :=
  Msg "user" ("Your code failed with error: " +:+ py_str E error +:+
              ". Fix it. Code was: " +:+ code).

(** The retry loop [while tries < 3], by the number [3 - tries] of attempts
    left; [result] is the outcome of the previous attempt. *)
Fixpoint viz_attempts (remaining : nat) (sql_result : pyval)
    (messages : list message) (result : pyval) : M pyval :=
  match remaining with
  | O => ret result
  | S remaining' =>
      do resp <- chat_create CODER_MODEL messages;
      do code <- lift (content_strip resp);
      do result <- generate_visualisation sql_result code;
      do ok <- lift (subscript result "success");
      if truthy ok then ret result
      else
        do error <- lift (subscript result "error");
        viz_attempts remaining' sql_result
          (messages ++ [fix_request error code]) result
  end.

Definition execute_visualisation_code (instructions sql_result : pyval)
  : M pyval :=
  do dumped <- lift (dumps (Some 2) sql_result);
  let prompt := viz_prompt dumped (elided_task E instructions sql_result) in
  viz_attempts 3 sql_result [Msg "user" prompt] VNone.

(** ** 5. Main agent loop *)

(** The variables of [main_agent] that live across iterations. *)
Record turn : Type := mkTurn {
  messages : list message;
  results : pyval;
  viz_result : pyval
}.

Definition append (m : message) (t : turn) : turn :=
  mkTurn (messages t ++ [m]) (results t) (viz_result t).

Definition initial_turn (user_input : string) : turn :=
  mkTurn [Msg "system" (system_prompt E); Msg "user" user_input] VNone VNone.

(** [not name], for [name] a string or [None]. *)
Definition name_missing (name : option string) : bool :=
  match name with
  | None => true
  | Some s => String.eqb s ""
  end.

(** The body of [for call in msg.tool_calls].  Of the [print] calls only
    the one whose argument can raise is kept. *)
Definition dispatch (call : tool_call) (t : turn) : M turn :=
  let name :=
    match call_function call with
    | Some f => fn_name f
    | None => None
    end in
  do args <-
    lift match call_function call with
         | Some f => json_loads E (fn_arguments f)
         | None => Raise (AttributeError
                            "'NoneType' object has no attribute 'arguments'")
         end;
  if name_missing name then
    ret (append (ToolMsg (call_id call) "Tool call missing name.") t)
  else if bool_decide (name = Some "execute_sql_query") then
    do sql_query <- lift (py_get args "sql_query");
    do r <- execute_sql_query sql_query;
    let t := mkTurn (messages t) r (viz_result t) in
    do rd <- lift (subscript r "result_df");
    do rows <- lift (subscript rd "rows");
    do _ <- lift (py_len rows);
    do content <- lift (dumps None r);
    ret (append (ToolMsg (call_id call) content) t)
  else if bool_decide (name = Some "execute_visualisation_code") then
    do instructions <- lift (elided_instructions E args);
    do v <- execute_visualisation_code instructions (results t);
    let t := mkTurn (messages t) (results t) v in
    do content <- lift (dumps None v);
    ret (append (ToolMsg (call_id call) content) t)
  else
    ret t.

Fixpoint dispatch_all (calls : list tool_call) (t : turn) : M turn :=
  match calls with
  | [] => ret t
  | call :: calls' => do t' <- dispatch call t; dispatch_all calls' t'
  end.

(** [if msg.tool_calls:] holds for a non-empty list. *)
Definition requested (m : assistant_message) : list tool_call :=
  default [] (msg_tool_calls m).

Definition turn_output (m : assistant_message) (t : turn) : M pyval :=
  let insights := elided_insights E m in
  do rdf <- lift (if truthy (results t) then elided_result_df E (results t)
                  else Ret VNone);
  do vis <- lift (if truthy (viz_result t)
                  then elided_visualisation E (viz_result t)
                  else Ret VNone);
  ret (VDict [("insights", insights); ("result_df", rdf);
              ("visualisation", vis)]).

(** How a run of the loop stands after a number of model round-trips. *)
Inductive outcome : Type :=
| Returned (output : pyval)
| Raised (e : exn)
| Running (t : turn).

Definition finish (r : res pyval * World) : outcome * World :=
  match r with
  | (Ret v, w) => (Returned v, w)
  | (Raise e, w) => (Raised e, w)
  end.

(** [while True:], cut after [rounds] model round-trips. *)
Fixpoint agent_loop (rounds : nat) (t : turn) (w : World) : outcome * World :=
  match rounds with
  | O => (Running t, w)
  | S rounds' =>
      match chat_create AGENT_MODEL (messages t) w with
      | (Raise e, w1) => (Raised e, w1)
      | (Ret msg, w1) =>
          let t1 := append (AssistantMsg msg) t in
          match requested msg with
          | [] => finish (turn_output msg t1 w1)
          | calls =>
              match dispatch_all calls t1 w1 with
              | (Raise e, w2) => (Raised e, w2)
              | (Ret t2, w2) => agent_loop rounds' t2 w2
              end
          end
      end
  end.

Definition main_agent (rounds : nat) (user_input : string) (w : World)
  : outcome * World :=
  agent_loop rounds (initial_turn user_input) w.

End Tools.

(** ** Scripted collaborators

    Concrete environments on which the definitions above are run: a model
    that answers from a script, an engine that knows one table, an
    interpreter whose behaviour is chosen per scenario. *)

Definition dq : string := String "034"%char "".

(** [{"sql_query": "<sql>"}] *)
Definition sql_arguments (sql : string) : string :=
  "{" +:+ dq +:+ "sql_query" +:+ dq +:+ ": " +:+ dq +:+ sql +:+ dq +:+ "}".

Definition COUNT_SQL : string := "SELECT COUNT(*) FROM resale_data_2017_to_2025".
Definition ALL_SQL : string := "SELECT * FROM resale_data_2017_to_2025".
Definition BAD_SQL : string := "SELEC COUNT(*) FROM resale_data_2017_to_2025".

Definition demo_loads (s : string) : res pyval :=
  if String.eqb s "{}" then Ret (VDict [])
  else if String.eqb s (sql_arguments COUNT_SQL)
  then Ret (VDict [("sql_query", VStr COUNT_SQL)])
  else if String.eqb s (sql_arguments BAD_SQL)
  then Ret (VDict [("sql_query", VStr BAD_SQL)])
  else Raise (mkExn true "JSONDecodeError"
                "Expecting value: line 1 column 1 (char 0)" None).

(** The table has 1500 rows of one column.  A statement of blanks is
    executed and leaves no result set; the engine writes no file. *)
Definition demo_engine (path : string) (sql : pyval)
    (files : gmap string string) : res cursor * gmap string string :=
  (match sql with
   | VStr s =>
       if String.eqb s COUNT_SQL
       then Ret {| description := Some [("count_star()", VStr "BIGINT")];
                   cur_rows := [VList [VInt 1500]];
                   fetch_error := None |}
       else if String.eqb s ALL_SQL
       then Ret {| description := Some [("resale_price", VStr "BIGINT")];
                   cur_rows := repeat (VList [VInt 500000]) 1500;
                   fetch_error := None |}
       else if String.eqb (strip s) ""
       then Ret {| description := None;
                   cur_rows := [];
                   fetch_error :=
                     Some (mkExn true "InvalidInputException"
                             "Invalid Input Error: No open result set" None) |}
       else Raise (mkExn true "ParserException"
                     "Parser Error: syntax error at or near SELEC" None)
   | _ => Raise (TypeError "execute(): incompatible function arguments")
   end, files).

Definition silent : assistant_message :=
  {| msg_content := Some "The table has 1500 rows."; msg_tool_calls := None |}.

Definition calling (name : option string) (arguments : string)
  : assistant_message :=
  {| msg_content := None;
     msg_tool_calls :=
       Some [{| call_id := "call_1";
                call_function := Some {| fn_name := name;
                                         fn_arguments := arguments |} |}] |}.

Definition answering (code : string) : assistant_message :=
  {| msg_content := Some code; msg_tool_calls := None |}.

(** An interpreter for three snippets: one draws a chart, one raises with
    an empty message, one leaves the process; any other code leaves [fig]
    unset. *)
Definition demo_run (code : string) (globals locals : dict) (w : World)
  : res dict * gmap string string * list event * nat :=
  if String.eqb code "fig = px.line(df)"
  then (Ret (locals ++ [("fig", VOpaque "Figure" true)]), fs w, [], 0)
  else if String.eqb code "raise ValueError()"
  then (Raise (mkExn true "ValueError" "" None), fs w, [], 0)
  else if String.eqb code "raise SystemExit"
  then (Raise (mkExn false "SystemExit" "" None), fs w, [], 0)
  else (Ret locals, fs w, [], 0).

Definition scripted_env (agent coder : list message -> assistant_message)
    (run : string -> dict -> dict -> World ->
           res dict * gmap string string * list event * nat) : Env :=
  {| chat := fun _ model ms =>
       if String.eqb model AGENT_MODEL then agent ms else coder ms;
     duckdb_connect := fun _ files => (None, files);
     duckdb_execute := demo_engine;
     duckdb_close := fun _ files => files;
     json_loads := demo_loads;
     json_dumps := fun _ _ => Ret "{...}";
     pd_DataFrame := fun _ _ => Ret (VOpaque "DataFrame" true);
     py_run := run;
     fig_to_image := fun _ => Ret "PNG";
     fig_to_json := fun _ => Ret "{...}";
     open_error := fun _ => None;
     uuid_source := fun n => "id-" +:+ pretty n;
     format_exc := fun e => "Traceback (most recent call last): " +:+ exn_type e;
     str_other := fun _ => "<object>";
     system_prompt := "You are an agent that answers questions about HDB resale prices.";
     elided_instructions := fun args => py_get args "instructions";
     elided_task := fun instructions _ =>
       match instructions with VStr s => s | _ => "None" end;
     elided_insights := fun m =>
       match msg_content m with Some s => VStr s | None => VNone end;
     elided_result_df := fun r => subscript r "result_df";
     elided_visualisation := fun v => py_get v "fig_path" |}.

Definition demo_env (agent coder : list message -> assistant_message) : Env :=
  scripted_env agent coder demo_run.

Definition quiet_env : Env := demo_env (fun _ => silent) (fun _ => silent).

Definition w0 : World := mkWorld ∅ 0 [].

(** A table of one row, as [execute_sql_query] returns it. *)
Definition demo_table : pyval :=
  sql_ok [VStr "resale_price"] [VList [VInt 500000]].

(** A snippet that writes a file of its own before it draws, and an
    interpreter for it: [open] is found through [__builtins__]. *)
Definition LEAKY_CODE : string :=
  "open('notes.txt', 'w').write(df.to_csv()); fig = px.line(df)".

Definition leaky_run (code : string) (globals locals : dict) (w : World)
  : res dict * gmap string string * list event * nat :=
  if String.eqb code LEAKY_CODE then
    match dict_lookup "__builtins__" globals with
    | Some _ => (Ret (locals ++ [("fig", VOpaque "Figure" true)]),
                 <["notes.txt" := "resale_price,500000"]> (fs w), [], 0)
    | None => (Raise (mkExn true "NameError" "name 'open' is not defined"
                        None),
               fs w, [], 0)
    end
  else demo_run code globals locals w.

Definition leaky_env : Env :=
  scripted_env (fun _ => silent) (fun _ => answering LEAKY_CODE) leaky_run.

(** An interpreter that looks at nothing but the names in its locals. *)
Definition sealed_run (code : string) (globals locals : dict) (w : World)
  : res dict * gmap string string * list event * nat :=
  demo_run code [] locals w.

(** The scripts of the agent model used below. *)
Definition asks_bad_sql : list message -> assistant_message :=
  fun _ => calling (Some "execute_sql_query") (sql_arguments BAD_SQL).

Definition asks_unknown_tool : list message -> assistant_message :=
  fun _ => calling (Some "get_schema") "{}".

Definition asks_chart_first : list message -> assistant_message :=
  fun _ => calling (Some "execute_visualisation_code") "{}".

Definition asks_malformed : list message -> assistant_message :=
  fun _ => calling (Some "execute_sql_query") "{".

(** Counts the rows, then answers. *)
Definition asks_count_once : list message -> assistant_message :=
  fun ms =>
    if (length ms <=? 2)%nat
    then calling (Some "execute_sql_query") (sql_arguments COUNT_SQL)
    else silent.


(** A snippet that asks the chart model itself and draws an identifier
    before it draws the chart, and an interpreter for it. *)
Definition BUSY_CODE : string :=
  "client.chat.completions.create(...); uuid.uuid4(); fig = px.line(df)".

Definition busy_run (code : string) (globals locals : dict) (w : World)
  : res dict * gmap string string * list event * nat :=
  if String.eqb code BUSY_CODE
  then (Ret (locals ++ [("fig", VOpaque "Figure" true)]), fs w,
        [EvChat CODER_MODEL []], 1)
  else demo_run code globals locals w.







Definition busy_env : Env :=
  scripted_env (fun _ => silent) (fun _ => answering BUSY_CODE) busy_run.


Definition bad_sql_env : Env :=
  demo_env asks_bad_sql (fun _ => silent).

Definition unknown_tool_env : Env :=
  demo_env asks_unknown_tool (fun _ => silent).

Definition chart_first_env : Env :=
  demo_env asks_chart_first (fun _ => answering "fig = px.line(df)").

Definition malformed_env : Env :=
  demo_env asks_malformed (fun _ => silent).

Definition count_env : Env :=
  demo_env asks_count_once (fun _ => silent).

Definition sealed_env : Env :=
  scripted_env (fun _ => silent) (fun _ => silent) sealed_run.

Definition QUESTION : string :=
  "How has average resale price changed over the years?".

(** ** The Streamlit page ([completed_codebase/app.py]) *)

(** The calls to Streamlit that put something on the page. *)
Inductive widget : Type :=
| StPageConfig (page_title layout : string)
| StTitle (body : string)
| StTextInput (label value : string)
| StButton (label : string)
| StSpinner (text : string)
| StSubheader (body : string)
| StWrite (body : string)
| StPlotlyChart (fig : pyval) (use_container_width : bool)
| StDataframe (df : pyval).

(** What the page needs besides the agent: [pio.from_json], and [open] on
    a value that is not a string. *)
Record Front : Type := {
  agent_env : Env;
  pio_from_json : string -> res pyval;
  open_other : pyval -> res string
}.

(** A script that fills the page: the widgets shown so far are the state. *)
Definition Page (A : Type) : Type := list widget -> res A * list widget.

Definition page_ret {A} (a : A) : Page A := fun p => (Ret a, p).

Definition page_bind {A B} (m : Page A) (k : A -> Page B) : Page B :=
  fun p =>
    match m p with
    | (Ret a, p') => k a p'
    | (Raise e, p') => (Raise e, p')
    end.

Definition page_lift {A} (r : res A) : Page A := fun p => (r, p).

Definition st (x : widget) : Page unit := fun p => (Ret tt, p ++ [x]).

Notation "'page' x <- m ; k" := (page_bind m (fun x => k))
  (at level 10, x name, m at level 100, k at level 200).

Definition FileNotFoundError (path : string) : exn :=
  mkExn true "FileNotFoundError"
    ("[Errno 2] No such file or directory: '" +:+ path +:+ "'") None.

(** [open(path).read()]. *)
Definition read_file (F : Front) (files : gmap string string) (path : pyval)
  : res string :=
  match path with
  | VStr p =>
      match files !! p with
      | Some content => Ret content
      | None => Raise (FileNotFoundError p)
      end
  | _ => open_other F path
  end.

Definition NEWLINE : string := String "010" "".

(** [text.replace("$", r"\$").replace("\\n", "\n")]: dollars are escaped
    for markdown, and a backslash followed by [n] becomes a line break. *)
Definition escape_text (s : string) : string :=
  str_replace "\n" NEWLINE (str_replace "$" "\$" s).

Definition escape_insights (insights : pyval) : res string :=
  match insights with
  | VStr s => Ret (escape_text s)
  | _ => Raise (AttributeError
                  ("'" +:+ type_name insights +:+
                   "' object has no attribute 'replace'"))
  end.

(** The statements after the spinner: insights, chart, table. *)
Definition show_output (F : Front) (output : pyval)
    (files : gmap string string) : Page unit :=
  page _ <- st (StSubheader "🔍 Insights");
  page insights <- page_lift (subscript output "insights");
  page text <- page_lift (escape_insights insights);
  page _ <- st (StWrite text);
  page vis <- page_lift (py_get output "visualisation");
  page _ <-
    (if truthy vis then
       page _ <- st (StSubheader "📈 Visualisation");
       page path <- page_lift (subscript output "visualisation");
       page fig_json <- page_lift (read_file F files path);
       page fig <- page_lift (pio_from_json F fig_json);
       st (StPlotlyChart fig true)
     else page_ret tt);
  page rdf <- page_lift (subscript output "result_df");
  if truthy rdf then
    page rd <- page_lift (subscript output "result_df");
    page rows <- page_lift (subscript rd "rows");
    page rd' <- page_lift (subscript output "result_df");
    page cols <- page_lift (subscript rd' "columns");
    page df <- page_lift (pd_DataFrame (agent_env F) rows cols);
    page _ <- st (StSubheader "📊 Data");
    st (StDataframe df)
  else page_ret tt.

(** How a run of the script stands. *)
Inductive page_outcome : Type :=
| Shown
| Crashed (e : exn)
| Waiting.

Definition HEADER : list widget :=
  [StPageConfig "HDB Resale Demo" "centered";
   StTitle "🏠 HDB Resale Prices Demo";
   StTextInput "Ask a question about HDB resale prices:"
     "How has average resale price changed over the years?";
   StButton "Run Agent"].

(** One run of the script: [typed] is what the text input returns and
    [clicked] what the button returns; the agent is given [rounds]
    round-trips. *)
Definition app (F : Front) (typed : string) (clicked : bool) (rounds : nat)
    (w : World) : page_outcome * World * list widget :=
  if clicked then
    let spinning := HEADER ++ [StSpinner "Thinking..."] in
    match main_agent (agent_env F) rounds typed w with
    | (Returned output, w') =>
        match show_output F output (fs w') spinning with
        | (Ret _, shown) => (Shown, w', shown)
        | (Raise e, shown) => (Crashed e, w', shown)
        end
    | (Raised e, w') => (Crashed e, w', spinning)
    | (Running _, w') => (Waiting, w', spinning)
    end
  else (Shown, w, HEADER).

(** Every dollar sign of [s] comes right after a backslash. *)
Fixpoint dollars_after (backslash : bool) (s : string) : bool :=
  match s with
  | EmptyString => true
  | String c s' =>
      (if Ascii.eqb c "$" then backslash else true) &&
      dollars_after (Ascii.eqb c "\") s'
  end.

Definition dollars_escaped (s : string) : bool := dollars_after false s.

Definition demo_front (E : Env) : Front :=
  {| agent_env := E;
     pio_from_json := fun js => Ret (VOpaque "Figure" true);
     open_other := fun _ =>
       Raise (TypeError "expected str, bytes or os.PathLike object") |}.

(** An output with a chart and a table, and the files of its chart. *)
Definition CHART_PATH : string := "visualisation_outputs/id-0_fig.json".

Definition chart_output : pyval :=
  VDict [("insights", VStr "Prices rose by $50k.\nSee the chart.");
         ("result_df",
          VDict [("columns", VList [VStr "resale_price"]);
                 ("rows", VList [VList [VInt 500000]])]);
         ("visualisation", VStr CHART_PATH)].

Definition chart_files : gmap string string := {[ CHART_PATH := "{...}" ]}.

(** The first call of [count_env]. *)
Definition count_call : tool_call :=
  {| call_id := "call_1";
     call_function := Some {| fn_name := Some "execute_sql_query";
                              fn_arguments := sql_arguments COUNT_SQL |} |}.

(** A call the model left without a name. *)
Definition nameless_call : tool_call :=
  {| call_id := "call_1";
     call_function := Some {| fn_name := None; fn_arguments := "{}" |} |}.

(** ** Vocabulary of the statements *)

(** What [None["result_df"]] raises. *)
Definition NoneType_error : exn :=
  TypeError "'NoneType' object is not subscriptable".

(** The two failure outcomes of [generate_visualisation]. *)
Definition is_failure (E : Env) (d : pyval) : Prop :=
  d = viz_no_fig \/ exists e, d = viz_exception E e.

(** The code the chart model returns on a conversation. *)
Definition coder_code (E : Env) (tr : list event) (ms : list message)
  : string :=
  match msg_content (chat E tr CODER_MODEL ms) with
  | Some raw => strip raw
  | None => ""
  end.

Definition coder_answers (E : Env) (tr : list event) (ms : list message)
  : Prop :=
  exists raw, msg_content (chat E tr CODER_MODEL ms) = Some raw.

(** Two environments that differ at most in the interpreter. *)
Definition same_but_interpreter (E1 E2 : Env) : Prop :=
  (forall rows cols, pd_DataFrame E1 rows cols = pd_DataFrame E2 rows cols) /\
  (forall fig, fig_to_image E1 fig = fig_to_image E2 fig) /\
  (forall fig, fig_to_json E1 fig = fig_to_json E2 fig) /\
  (forall path, open_error E1 path = open_error E2 path) /\
  (forall n, uuid_source E1 n = uuid_source E2 n) /\
  (forall e, format_exc E1 e = format_exc E2 e).

(** One attempt of the retry loop, made on the conversation [ms] in the
    world [w]: the chart model answers with text, and
    [generate_visualisation] on that text returns [d] and leaves [w']. *)
Definition attempt (E : Env) (sr : pyval) (ms : list message) (w : World)
    (d : pyval) (w' : World) : Prop :=
  coder_answers E (trace w) ms /\
  generate_visualisation E sr (coder_code E (trace w) ms)
    (log (EvChat CODER_MODEL ms) w) = (Ret d, w').

(** The conversation of the attempt after a failure [d] of the attempt
    made on [ms] in [w]. *)
Definition retry_messages (E : Env) (ms : list message) (w : World)
    (d : pyval) : list message :=
  match subscript d "error" with
  | Ret error => ms ++ [fix_request E error (coder_code E (trace w) ms)]
  | Raise _ => ms
  end.

(** The world in which [generate_visualisation], called in [w], hands the
    code to [exec]: the identifier is drawn, nothing else is done. *)
Definition at_exec (w : World) : World :=
  mkWorld (fs w) (S (uuid_next w)) (trace w).


(** An engine that writes no file: the database is there and the
    statements only read. *)
Definition read_only_engine (E : Env) : Prop :=
  (forall path files, snd (duckdb_connect E path files) = files) /\
  (forall path sql files, snd (duckdb_execute E path sql files) = files) /\
  (forall path files, duckdb_close E path files = files).

(** The turn as a machine: the loop variables, the tool calls of the last
    response still to be dispatched, and the world.  A step asks the model
    (when nothing is pending and the response carries requests) or
    dispatches the next pending call (when that does not raise). *)
Record config : Type := mkConfig {
  cfg_turn : turn;
  cfg_pending : list tool_call;
  cfg_world : World
}.

Inductive step (E : Env) : config -> config -> Prop :=
| step_model t w :
    let msg := chat E (trace w) AGENT_MODEL (messages t) in
    requested msg <> [] ->
    step E (mkConfig t [] w)
           (mkConfig (append (AssistantMsg msg) t) (requested msg)
                     (log (EvChat AGENT_MODEL (messages t)) w))
| step_call t call calls w t' w' :
    dispatch E call t w = (Ret t', w') ->
    step E (mkConfig t (call :: calls) w) (mkConfig t' calls w').

Definition reachable (E : Env) (user_input : string) (w : World) (c : config)
  : Prop :=
  rtc (step E) (mkConfig (initial_turn E user_input) [] w) c.

(** The number of round-trips to the agent model recorded in a trace. *)
Fixpoint agent_rounds (tr : list event) : nat :=
  match tr with
  | [] => 0
  | EvChat model _ :: tr' =>
      (if String.eqb model AGENT_MODEL then 1 else 0) + agent_rounds tr'
  | _ :: tr' => agent_rounds tr'
  end.

(** What the generated code can do and the program's own statements, the
    artifacts apart, do not: nothing is taken from the trace, the calls
    added are the code's, and the counter of identifiers does not go
    back. *)
Definition code_ran : relation World :=
  fun w w' =>
    uuid_next w <= uuid_next w' /\
    exists calls, trace w' = trace w ++ map EvCode calls.

(** A computation keeps a relation between the world before and after,
    however it ends. *)
Definition preserves (R : relation World) {A} (m : M A) : Prop :=
  forall w r w', m w = (r, w') -> R w w'.

Definition same_rounds : relation World :=
  fun w w' => agent_rounds (trace w') = agent_rounds (trace w).

(** Identifiers are drawn in order: the counter never goes back. *)
Definition later_draws : relation World :=
  fun w w' => uuid_next w <= uuid_next w'.




(** A markdown fence occurs somewhere in [s]. *)
Fixpoint has_fence (s : string) : bool :=
  match s with
  | EmptyString => false
  | String _ s' => String.prefix "```" s || has_fence s'
  end.

(** Events by the collaborator they reach: a call to DuckDB, whoever made
    it; a call of the program itself to the chart model; a call made by
    generated code. *)
Fixpoint is_db_event (ev : event) : bool :=
  match ev with
  | EvConnect _ | EvExecute _ | EvClose => true
  | EvChat _ _ => false
  | EvCode ev' => is_db_event ev'
  end.

Definition is_coder_chat (ev : event) : bool :=
  match ev with
  | EvChat model _ => String.eqb model CODER_MODEL
  | _ => false
  end.

Definition is_code_event (ev : event) : bool :=
  match ev with
  | EvCode _ => true
  | _ => false
  end.

(** A call of the program itself to DuckDB. *)
Definition is_own_db_event (ev : event) : bool :=
  match ev with
  | EvConnect _ | EvExecute _ | EvClose => true
  | _ => false
  end.

(** The name a tool call carries, as [dispatch] reads it. *)
Definition call_name (call : tool_call) : option string :=
  match call_function call with
  | Some f => fn_name f
  | None => None
  end.

(** The agent model never asks for the tool [name]. *)
Definition never_requests (E : Env) (name : string) : Prop :=
  forall tr ms call,
    In call (requested (chat E tr AGENT_MODEL ms)) ->
    call_name call <> Some name.

(** The calls to the data source recorded in a trace, and the calls of
    generated code. *)
Definition db_events (tr : list event) : list event :=
  List.filter is_db_event tr.

Definition code_events (tr : list event) : list event :=
  List.filter is_code_event tr.

(** What is left alone where no chart is asked for: no identifier is
    drawn, no generated code runs, the chart model is not called, and the
    files change by the work of the engine only. *)
Definition no_chart_work (E : Env) : relation World :=
  fun w w' =>
    uuid_next w' = uuid_next w /\
    code_events (trace w') = code_events (trace w) /\
    List.filter is_coder_chat (trace w') = List.filter is_coder_chat (trace w) /\
    (read_only_engine E -> fs w' = fs w).

(** What is left alone where no statement is asked for: DuckDB is not
    reached, no generated code runs and no file is written. *)
Definition no_data_access : relation World :=
  fun w w' =>
    db_events (trace w') = db_events (trace w) /\
    code_events (trace w') = code_events (trace w) /\
    fs w' = fs w.

(** * Properties *)

Ltac monad_unfold :=
  unfold bind, ret, raise, lift, emit, try_except, log, set_fs in *.

(** ** Inversion of computations *)

Lemma bind_inv {A B} (m : M A) (k : A -> M B) w r w' :
  bind m k w = (r, w') ->
  (exists a w1, m w = (Ret a, w1) /\ k a w1 = (r, w')) \/
  (exists e, m w = (Raise e, w') /\ r = Raise e).
Proof.
  unfold bind. destruct (m w) as [[a|e] w1]; intros H.
  - left. eauto.
  - right. inversion H; subst. eauto.
Qed.

Lemma bind_ret {A B} (m : M A) (k : A -> M B) w a w1 :
  m w = (Ret a, w1) -> bind m k w = k a w1.
Proof. unfold bind. now intros ->. Qed.

Lemma bind_raise {A B} (m : M A) (k : A -> M B) w e w1 :
  m w = (Raise e, w1) -> bind m k w = (Raise e, w1).
Proof. unfold bind. now intros ->. Qed.

Lemma try_except_inv {A} (body : M A) (h : exn -> M A) w r w' :
  try_except body h w = (r, w') ->
  (exists a, body w = (Ret a, w') /\ r = Ret a) \/
  (exists e w1, body w = (Raise e, w1) /\ exn_is_Exception e = true /\
                h e w1 = (r, w')) \/
  (exists e, body w = (Raise e, w') /\ exn_is_Exception e = false /\
             r = Raise e).
Proof.
  unfold try_except. destruct (body w) as [[a|e] w1]; intros H.
  - left. inversion H; subst. eauto.
  - right. destruct (exn_is_Exception e) eqn:He.
    + left. eauto 6.
    + right. inversion H; subst. eauto.
Qed.

Lemma lift_inv {A} (x : res A) w r w' :
  lift x w = (r, w') -> r = x /\ w' = w.
Proof. unfold lift. now intros [= <- <-]. Qed.

Lemma ret_inv {A} (a : A) w r w' :
  ret a w = (r, w') -> r = Ret a /\ w' = w.
Proof. unfold ret. now intros [= <- <-]. Qed.

Lemma bind_lift {A B} (x : res A) (k : A -> M B) w :
  bind (lift x) k w =
    match x with
    | Ret a => k a w
    | Raise e => (Raise e, w)
    end.
Proof. unfold bind, lift. now destruct x. Qed.

(** Takes a hypothesis on a run of [do x <- m; k] apart, one bind at a time. *)
Ltac invert_run :=
  repeat (match goal with
          | H : bind _ _ _ = (_, _) |- _ =>
              apply bind_inv in H;
              destruct H as [(? & ? & ? & H) | (? & ? & ?)]
          | H : lift _ _ = (_, _) |- _ => apply lift_inv in H; destruct H
          | H : ret _ _ = (_, _) |- _ => apply ret_inv in H; destruct H
          end; simplify_eq).

(** ** Relations kept by computations *)

Section Preserves.
Variable R : relation World.
Context `{!PreOrder R}.

Lemma preserves_ret {A} (a : A) : preserves R (ret a).
Proof. intros w r w' [= <- <-]. reflexivity. Qed.

Lemma preserves_raise {A} e : preserves R (@raise A e).
Proof. intros w r w' [= <- <-]. reflexivity. Qed.

Lemma preserves_lift {A} (x : res A) : preserves R (lift x).
Proof. intros w r w' [= <- <-]. reflexivity. Qed.

Lemma preserves_bind {A B} (m : M A) (k : A -> M B) :
  preserves R m -> (forall a, preserves R (k a)) -> preserves R (bind m k).
Proof.
  intros Hm Hk w r w' H. apply bind_inv in H.
  destruct H as [(a & w1 & H1 & H2) | (e & H1 & _)].
  - etransitivity; [eapply Hm | eapply Hk]; eassumption.
  - eapply Hm; eassumption.
Qed.

Lemma preserves_try_except {A} (body : M A) h :
  preserves R body -> (forall e, preserves R (h e)) ->
  preserves R (try_except body h).
Proof.
  intros Hb Hh w r w' H. apply try_except_inv in H.
  destruct H as [(a & H & _) | [(e & w1 & H & _ & H2) | (e & H & _)]].
  - eapply Hb; eassumption.
  - etransitivity; [eapply Hb | eapply Hh]; eassumption.
  - eapply Hb; eassumption.
Qed.

Lemma preserves_if {A} (b : bool) (m1 m2 : M A) :
  preserves R m1 -> preserves R m2 -> preserves R (if b then m1 else m2).
Proof. now destruct b. Qed.

End Preserves.

Ltac preserves_step :=
  lazymatch goal with
  | |- preserves _ (ret _) => apply preserves_ret
  | |- preserves _ (raise _) => apply preserves_raise
  | |- preserves _ (lift _) => apply preserves_lift
  | |- preserves _ (if _ then _ else _) => apply preserves_if
  | |- preserves _ (try_except _ _) =>
      apply preserves_try_except; [exact _ | | intros ?]
  | |- preserves _ (bind _ _) => apply preserves_bind; [exact _ | | intros ?]
  end;
  try (exact _).

(** ** Strings *)


(** ** The Query Executor *)

Section QueryExecutor.
Variable E : Env.

Lemma execute_sql_query_falsy sql w :
  truthy sql = false ->
  execute_sql_query E sql w = (Ret (sql_error "No SQL query provided"), w).
Proof. intros H. unfold execute_sql_query. now rewrite H. Qed.

(** A call on a statement that is not falsy, by the answers of the engine:
    its result, the files the engine leaves and the events added. *)
Lemma execute_sql_query_run sql w :
  truthy sql = true ->
  let con := duckdb_connect E DB_PATH (fs w) in
  let exe := duckdb_execute E DB_PATH sql (snd con) in
  let caught e :=
    if exn_is_Exception e
    then Ret (sql_error ("Error executing SQL query: " +:+ exn_str e))
    else Raise e in
  execute_sql_query E sql w =
    match fst con with
    | Some e =>
        (caught e,
         mkWorld (snd con) (uuid_next w) (trace w ++ [EvConnect DB_PATH]))
    | None =>
        match fst exe with
        | Raise e =>
            (caught e,
             mkWorld (snd exe) (uuid_next w)
               (trace w ++ [EvConnect DB_PATH; EvExecute sql]))
        | Ret c =>
            match fetch_error c with
            | Some e =>
                (caught e,
                 mkWorld (snd exe) (uuid_next w)
                   (trace w ++ [EvConnect DB_PATH; EvExecute sql]))
            | None =>
                (Ret (sql_ok (column_names c) (firstn 1000 (cur_rows c))),
                 mkWorld (duckdb_close E DB_PATH (snd exe)) (uuid_next w)
                   (trace w ++ [EvConnect DB_PATH; EvExecute sql; EvClose]))
            end
        end
    end.
Proof.
  intros Ht. cbv zeta.
  unfold execute_sql_query, connect, cursor_execute, close, sql_handler,
    engine_connect, engine_execute, engine_close, fetchmany.
  rewrite Ht; simpl. monad_unfold. simpl.
  destruct (fst (duckdb_connect E DB_PATH (fs w))) as [e|]; simpl.
  - destruct (exn_is_Exception e); reflexivity.
  - destruct (fst (duckdb_execute E DB_PATH sql _)) as [c|e]; simpl.
    + destruct (fetch_error c) as [e|]; simpl.
      * rewrite <- !app_assoc. destruct (exn_is_Exception e); reflexivity.
      * now rewrite <- !app_assoc.
    + rewrite <- !app_assoc. destruct (exn_is_Exception e); reflexivity.
Qed.

(** The call draws no identifier. *)
Lemma execute_sql_query_world sql w :
  uuid_next (snd (execute_sql_query E sql w)) = uuid_next w.
Proof.
  destruct (truthy sql) eqn:Ht.
  - rewrite (execute_sql_query_run sql w Ht). cbv zeta.
    repeat match goal with
           | |- context [match ?x with _ => _ end] => destruct x
           end; reflexivity.
  - now rewrite execute_sql_query_falsy.
Qed.

(** The call reaches nothing but the data source, and writes what the
    engine writes. *)
Lemma execute_sql_query_effects sql w :
  let out := execute_sql_query E sql w in
  uuid_next (snd out) = uuid_next w /\
  (exists evs,
      trace (snd out) = trace w ++ evs /\
      forallb is_own_db_event evs = true) /\
  (truthy sql = false -> fs (snd out) = fs w) /\
  (read_only_engine E -> fs (snd out) = fs w).
Proof.
  cbv zeta. split; [apply execute_sql_query_world|].
  destruct (truthy sql) eqn:Ht.
  - rewrite (execute_sql_query_run sql w Ht). cbv zeta.
    split; [|split; [discriminate|]].
    + destruct (fst (duckdb_connect E DB_PATH (fs w))) as [e|];
        [|destruct (fst (duckdb_execute E DB_PATH sql _)) as [c|e];
          [destruct (fetch_error c) as [e|]|]];
        simpl; eexists; split; reflexivity.
    + intros (Hc & He & Hcl).
      repeat match goal with
             | |- context [match ?x with _ => _ end] => destruct x
             end; simpl; now rewrite ?Hcl, ?He, ?Hc.
  - rewrite execute_sql_query_falsy by assumption. simpl.
    split; [exists []; now rewrite app_nil_r|]. split; reflexivity.
Qed.

(** A statement that is not falsy reaches the data source: a connection is
    asked for and, when it is there, the statement is executed. *)
Lemma execute_sql_query_attempt sql w :
  truthy sql = true ->
  exists rest,
    trace (snd (execute_sql_query E sql w)) =
      trace w ++ EvConnect DB_PATH :: rest /\
    (fst (duckdb_connect E DB_PATH (fs w)) = None ->
     exists rest', rest = EvExecute sql :: rest') /\
    (forall e, fst (duckdb_connect E DB_PATH (fs w)) = Some e -> rest = []).
Proof.
  intros Ht. rewrite (execute_sql_query_run sql w Ht). cbv zeta.
  destruct (fst (duckdb_connect E DB_PATH (fs w))) as [e|].
  - exists []. split; [reflexivity|]. split; [discriminate | reflexivity].
  - destruct (fst (duckdb_execute E DB_PATH sql _)) as [c|e];
      [destruct (fetch_error c) as [e|]|].
    all: eexists; split; [reflexivity|]; split; [eauto | discriminate].
Qed.

(** The two shapes of a returned value. *)
Lemma execute_sql_query_ret sql w r w' :
  execute_sql_query E sql w = (Ret r, w') ->
  (exists m, r = sql_error m) \/
  (exists c,
      truthy sql = true /\
      fst (duckdb_connect E DB_PATH (fs w)) = None /\
      fst (duckdb_execute E DB_PATH sql
             (snd (duckdb_connect E DB_PATH (fs w)))) = Ret c /\
      fetch_error c = None /\
      r = sql_ok (column_names c) (firstn 1000 (cur_rows c))).
Proof.
  destruct (truthy sql) eqn:Ht.
  - rewrite (execute_sql_query_run sql w Ht). cbv zeta.
    destruct (fst (duckdb_connect E DB_PATH (fs w))) as [e|].
    + destruct (exn_is_Exception e); intros [= <- <-]; eauto.
    + destruct (fst (duckdb_execute E DB_PATH sql _)) as [c|e] eqn:He.
      * destruct (fetch_error c) as [e|] eqn:Hf.
        -- destruct (exn_is_Exception e); intros [= <- <-]; eauto.
        -- intros [= <- <-]. right. exists c. eauto.
      * destruct (exn_is_Exception e); intros [= <- <-]; eauto.
  - rewrite execute_sql_query_falsy by assumption. intros [= <- <-]. eauto.
Qed.

(** On an answer of the engine with a result set the call returns the
    table. *)
Lemma execute_sql_query_ok sql c w :
  truthy sql = true ->
  fst (duckdb_connect E DB_PATH (fs w)) = None ->
  fst (duckdb_execute E DB_PATH sql (snd (duckdb_connect E DB_PATH (fs w))))
    = Ret c ->
  fetch_error c = None ->
  exists w',
    execute_sql_query E sql w =
      (Ret (sql_ok (column_names c) (firstn 1000 (cur_rows c))), w').
Proof.
  intros Ht Hc He Hf. rewrite (execute_sql_query_run sql w Ht). cbv zeta.
  rewrite Hc, He, Hf. eauto.
Qed.

(** C2.  Whenever [execute_sql_query] returns a table, the engine answered
    the statement and the rows returned are the first 1000 rows of that
    answer: never more than 1000, however many the statement produces, and
    the result carries no [error] entry. *)
Theorem execute_sql_query_row_cap sql w r w' rd :
  execute_sql_query E sql w = (Ret r, w') ->
  subscript r "result_df" = Ret rd ->
  exists c cols rows,
    fst (duckdb_execute E DB_PATH sql
           (snd (duckdb_connect E DB_PATH (fs w)))) = Ret c /\
    rows = firstn 1000 (cur_rows c) /\
    r = sql_ok cols rows /\
    length rows <= 1000 /\
    length rows = Nat.min 1000 (length (cur_rows c)) /\
    subscript r "error" = Raise (KeyError "error").
Proof.
  intros H Hrd. apply execute_sql_query_ret in H.
  destruct H as [(m & ->) | (c & _ & _ & Hc & _ & ->)]; [discriminate|].
  exists c, (column_names c), (firstn 1000 (cur_rows c)).
  repeat split; try assumption.
  - rewrite length_firstn. lia.
  - now rewrite length_firstn.
Qed.

(** C3 (as amended).  A statement that is falsy (the empty string, [None]
    for a missing argument, a zero) is answered with the input error, and
    nothing is done: no connection is opened.  Any other string, one of
    blanks only included, is taken to the data source: the answer is not
    the input error, a connection is asked for and, unless that fails, the
    statement is executed as it is. *)
Theorem execute_sql_query_empty sql w :
  (truthy sql = false ->
   execute_sql_query E sql w = (Ret (sql_error "No SQL query provided"), w)) /\
  (forall s, sql = VStr s -> s <> "" ->
   let out := execute_sql_query E sql w in
   fst out <> Ret (sql_error "No SQL query provided") /\
   exists rest,
     trace (snd out) = trace w ++ EvConnect DB_PATH :: rest /\
     (fst (duckdb_connect E DB_PATH (fs w)) = None ->
      exists rest', rest = EvExecute sql :: rest') /\
     (forall e, fst (duckdb_connect E DB_PATH (fs w)) = Some e -> rest = [])).
Proof.
  split.
  - apply execute_sql_query_falsy.
  - intros s -> Hs. cbv zeta.
    assert (Ht : truthy (VStr s) = true).
    { simpl. destruct (String.eqb_spec s ""); [contradiction | reflexivity]. }
    split; [|now apply execute_sql_query_attempt].
    rewrite (execute_sql_query_run _ w Ht). cbv zeta.
    assert (Hcaught : forall e : exn,
               (if exn_is_Exception e
                then Ret (sql_error ("Error executing SQL query: " +:+ exn_str e))
                else Raise e) <> Ret (sql_error "No SQL query provided")).
    { intros e. destruct (exn_is_Exception e); [|discriminate].
      change ("Error executing SQL query: " +:+ exn_str e)
        with (String "E" ("rror executing SQL query: " +:+ exn_str e)).
      discriminate. }
    destruct (fst (duckdb_connect E DB_PATH (fs w))) as [e|];
      [apply Hcaught|].
    destruct (fst (duckdb_execute E DB_PATH (VStr s) _)) as [c|e];
      [|apply Hcaught].
    destruct (fetch_error c) as [e|]; [apply Hcaught | discriminate].
Qed.

End QueryExecutor.

(** ** The Chart Generator *)

Section ChartGenerator.
Variable E : Env.

Lemma chat_create_run model ms w :
  chat_create E model ms w =
    (Ret (chat E (trace w) model ms), log (EvChat model ms) w).
Proof. reflexivity. Qed.

(** What a subscript raises is an exception of the interpreter. *)
Lemma subscript_raises v k e :
  subscript v k = Raise e ->
  exn_is_Exception e = true /\ exn_str_raises e = None.
Proof.
  destruct v; simpl; try (now intros [= <-]).
  destruct (dict_lookup k d); [discriminate | now intros [= <-]].
Qed.

Lemma uuid4_run w :
  uuid4 E w = (Ret (uuid_source E (uuid_next w)), at_exec w).
Proof. reflexivity. Qed.

Lemma exec_inv code g l w r w' :
  exec E code g l w = (r, w') ->
  exists files calls draws,
    py_run E code (exec_globals g) l w = (r, files, calls, draws) /\
    w' = mkWorld files (uuid_next w + draws) (trace w ++ map EvCode calls).
Proof.
  unfold exec.
  destruct (py_run E code (exec_globals g) l w) as [[[r0 files] calls] draws].
  intros [= <- <-]. eauto.
Qed.


Lemma open_w_inv path w r w' :
  open_w E path w = (r, w') ->
  uuid_next w' = uuid_next w /\ trace w' = trace w /\
  (r = Ret tt -> fs w' = <[path := ""]> (fs w)).
Proof.
  unfold open_w. destruct (open_error E path); intros [= <- <-]; simpl; easy.
Qed.

Lemma write_inv path data w r w' :
  write path data w = (r, w') ->
  r = Ret tt /\ uuid_next w' = uuid_next w /\ trace w' = trace w /\
  fs w' = <[path := data]> (fs w).
Proof. unfold write. now intros [= <- <-]. Qed.

(** *** What a call leaves in the trace and of the counter *)

#[local] Instance code_ran_preorder : PreOrder code_ran.
Proof.
  split.
  - intros w. split; [lia|]. exists []. simpl. now rewrite app_nil_r.
  - intros w1 w2 w3 [Hu1 (c1 & H1)] [Hu2 (c2 & H2)]. split; [lia|].
    exists (c1 ++ c2). rewrite H2, H1, map_app. now rewrite <- app_assoc.
Qed.

Lemma same_trace_code_ran w w' :
  uuid_next w <= uuid_next w' -> trace w' = trace w -> code_ran w w'.
Proof.
  intros Hu Ht. split; [exact Hu|]. exists []. simpl. now rewrite app_nil_r.
Qed.

Lemma uuid4_code_ran : preserves code_ran (uuid4 E).
Proof. intros w r w' [= <- <-]. apply same_trace_code_ran; simpl; lia || easy. Qed.

Lemma exec_code_ran code g l : preserves code_ran (exec E code g l).
Proof.
  intros w r w' H. apply exec_inv in H.
  destruct H as (files & calls & draws & _ & ->). split; simpl; [lia | eauto].
Qed.

Lemma open_w_code_ran path : preserves code_ran (open_w E path).
Proof.
  intros w r w' H. apply open_w_inv in H. destruct H as (Hu & Ht & _).
  apply same_trace_code_ran; [lia | exact Ht].
Qed.

Lemma write_code_ran path data : preserves code_ran (write path data).
Proof.
  intros w r w' H. apply write_inv in H. destruct H as (_ & Hu & Ht & _).
  apply same_trace_code_ran; [lia | exact Ht].
Qed.

Lemma generate_visualisation_body_code_ran id sr code :
  preserves code_ran (generate_visualisation_body E id sr code).
Proof.
  unfold generate_visualisation_body.
  repeat preserves_step;
    try apply exec_code_ran; try apply open_w_code_ran;
    try apply write_code_ran.
Qed.

Lemma viz_handler_run e w :
  viz_handler E e w =
    (match exn_str_raises e with
     | Some e' => Raise e'
     | None => Ret (viz_exception E e)
     end, w).
Proof.
  unfold viz_handler, str_exn. rewrite bind_lift.
  now destruct (exn_str_raises e).
Qed.

(** The call, by the run of its [try] block. *)
Lemma generate_visualisation_unfold sr code w :
  generate_visualisation E sr code w =
    match generate_visualisation_body E (uuid_source E (uuid_next w)) sr code
            (at_exec w) with
    | (Ret d, w') => (Ret d, w')
    | (Raise e, w') =>
        if exn_is_Exception e
        then (match exn_str_raises e with
              | Some e' => Raise e'
              | None => Ret (viz_exception E e)
              end, w')
        else (Raise e, w')
    end.
Proof.
  unfold generate_visualisation, try_except, generate_visualisation_try.
  erewrite bind_ret by apply uuid4_run.
  destruct (generate_visualisation_body E _ sr code (at_exec w))
    as [[d|e] w']; [reflexivity|].
  now rewrite viz_handler_run.
Qed.

Lemma generate_visualisation_code_ran sr code w r w' :
  generate_visualisation E sr code w = (r, w') ->
  S (uuid_next w) <= uuid_next w' /\
  exists calls, trace w' = trace w ++ map EvCode calls.
Proof.
  rewrite generate_visualisation_unfold.
  destruct (generate_visualisation_body E _ sr code (at_exec w))
    as [r0 w0] eqn:Hb.
  apply generate_visualisation_body_code_ran in Hb. destruct Hb as [Hu Ht].
  simpl in Hu, Ht.
  destruct r0 as [d|e]; [|destruct (exn_is_Exception e)];
    intros [= <- <-]; split; lia || exact Ht.
Qed.

(** *** How a call can end *)



(** Without a table the call fails before any code runs and before any file
    is written. *)
Lemma generate_visualisation_None code w :
  generate_visualisation E VNone code w =
    (Ret (viz_exception E NoneType_error),
     mkWorld (fs w) (S (uuid_next w)) (trace w)).
Proof. reflexivity. Qed.

Lemma failure_fields d :
  is_failure E d ->
  subscript d "success" = Ret (VBool false) /\
  (exists s, subscript d "error" = Ret (VStr s)) /\
  py_get d "fig_path" = Ret VNone.
Proof.
  intros [-> | (e & ->)]; simpl; eauto.
Qed.




(** *** The retry loop, one attempt at a time *)

Lemma viz_attempts_attempt n sr ms last w r w1 :
  coder_answers E (trace w) ms ->
  generate_visualisation E sr (coder_code E (trace w) ms)
    (log (EvChat CODER_MODEL ms) w) = (r, w1) ->
  viz_attempts E (S n) sr ms last w =
    match r with
    | Raise e => (Raise e, w1)
    | Ret d =>
        match subscript d "success" with
        | Raise e => (Raise e, w1)
        | Ret ok =>
            if truthy ok then (Ret d, w1)
            else match subscript d "error" with
                 | Raise e => (Raise e, w1)
                 | Ret error =>
                     viz_attempts E n sr
                       (ms ++ [fix_request E error (coder_code E (trace w) ms)])
                       d w1
                 end
        end
    end.
Proof.
  intros (raw & Hraw) Hg. cbn [viz_attempts].
  erewrite bind_ret by apply chat_create_run.
  unfold content_strip. rewrite Hraw. rewrite bind_lift.
  unfold coder_code in Hg |- *. rewrite Hraw in Hg |- *.
  destruct r as [d|e].
  - erewrite bind_ret by exact Hg. rewrite bind_lift.
    destruct (subscript d "success") as [ok|]; [|reflexivity].
    destruct (truthy ok); [reflexivity|]. rewrite bind_lift.
    now destruct (subscript d "error").
  - now erewrite bind_raise by exact Hg.
Qed.

(** One failed attempt: the model is asked, its code fails, and the loop
    goes on with the request to fix it appended. *)
Lemma viz_attempts_failed n sr ms last w d w1 :
  attempt E sr ms w d w1 ->
  is_failure E d ->
  viz_attempts E (S n) sr ms last w =
    viz_attempts E n sr (retry_messages E ms w d) d w1.
Proof.
  intros [Hans Hg] Hf.
  rewrite (viz_attempts_attempt n sr ms last w _ _ Hans Hg).
  destruct (failure_fields d Hf) as (Hs & (s & He) & _).
  unfold retry_messages. now rewrite Hs, He.
Qed.




(** Without a table every attempt fails the same way, and none touches the
    files. *)
Lemma viz_attempts_None n ms last w :
  let out := viz_attempts E n VNone ms last w in
  let d := match n with O => last | S _ => viz_exception E NoneType_error end in
  fs (snd out) = fs w /\
  code_events (trace (snd out)) = code_events (trace w) /\
  db_events (trace (snd out)) = db_events (trace w) /\
  (fst out = Ret d \/ exists e, fst out = Raise e) /\
  ((forall tr ms', coder_answers E tr ms') -> fst out = Ret d).
Proof.
  revert ms last w. induction n as [|n IH]; intros ms last w; cbv zeta.
  - repeat split; try reflexivity. now left.
  - destruct (msg_content (chat E (trace w) CODER_MODEL ms)) as [raw|] eqn:Hraw.
    + assert (Ha : attempt E VNone ms w (viz_exception E NoneType_error)
                     (at_exec (log (EvChat CODER_MODEL ms) w))).
      { split; [now exists raw | apply generate_visualisation_None]. }
      rewrite (viz_attempts_failed n VNone ms last w _ _ Ha)
        by (right; eexists; reflexivity).
      specialize (IH (retry_messages E ms w (viz_exception E NoneType_error))
                    (viz_exception E NoneType_error)
                    (at_exec (log (EvChat CODER_MODEL ms) w))).
      cbv zeta in IH.
      replace (match n with
               | O => viz_exception E NoneType_error
               | S _ => viz_exception E NoneType_error
               end) with (viz_exception E NoneType_error) in IH
        by now destruct n.
      destruct IH as (IH1 & IH2 & IH3 & IH4).
      split; [exact IH1|]. split; [|split; [|exact IH4]].
      * rewrite IH2. cbn [at_exec log trace]. unfold code_events.
        rewrite List.filter_app. simpl. now rewrite app_nil_r.
      * rewrite IH3. cbn [at_exec log trace]. unfold db_events.
        rewrite List.filter_app. simpl. now rewrite app_nil_r.
    + cbn [viz_attempts]. unfold chat_create, bind, lift, content_strip.
      rewrite Hraw. simpl. split; [reflexivity|].
      split; [unfold code_events; rewrite List.filter_app; simpl;
              now rewrite app_nil_r|].
      split; [unfold db_events; rewrite List.filter_app; simpl;
              now rewrite app_nil_r|].
      split; [right; eauto|].
      intros Hall. destruct (Hall (trace w) ms) as (raw & Hr). congruence.
Qed.

(** The whole tool, called before any table exists. *)
Lemma execute_visualisation_code_None instr w :
  let out := execute_visualisation_code E instr VNone w in
  fs (snd out) = fs w /\
  code_events (trace (snd out)) = code_events (trace w) /\
  db_events (trace (snd out)) = db_events (trace w) /\
  (fst out = Ret (viz_exception E NoneType_error) \/
   exists e, fst out = Raise e) /\
  ((forall tr ms, coder_answers E tr ms) ->
   fst out = Ret (viz_exception E NoneType_error)).
Proof.
  unfold execute_visualisation_code.
  erewrite bind_ret by reflexivity.
  apply (viz_attempts_None 3).
Qed.

End ChartGenerator.

(** ** Round-trips to the agent model

    Only the loop itself calls the agent model: the tools leave the number
    of its round-trips as it is. *)

Section Rounds.
Variable E : Env.

Lemma turn_output_world m t w r w' :
  turn_output E m t w = (r, w') -> w' = w.
Proof. unfold turn_output. intros H. invert_run; reflexivity. Qed.

Lemma finish_running r t w : finish r <> (Running t, w).
Proof. destruct r as [[v|e] w1]; discriminate. Qed.

#[local] Instance same_rounds_preorder : PreOrder same_rounds.
Proof.
  split.
  - intros w. reflexivity.
  - intros w1 w2 w3 H1 H2. unfold same_rounds in *. congruence.
Qed.

Lemma agent_rounds_app tr1 tr2 :
  agent_rounds (tr1 ++ tr2) = agent_rounds tr1 + agent_rounds tr2.
Proof.
  induction tr1 as [|[model ms| | | |ev] tr1 IH]; simpl;
    [reflexivity| |assumption..].
  rewrite IH. lia.
Qed.

Lemma emit_rounds ev :
  agent_rounds [ev] = 0 -> preserves same_rounds (emit ev).
Proof.
  intros Hev w r w' [= <- <-]. unfold same_rounds. simpl.
  rewrite agent_rounds_app, Hev. lia.
Qed.

Lemma chat_create_coder_rounds ms :
  preserves same_rounds (chat_create E CODER_MODEL ms).
Proof.
  intros w r w' [= <- <-]. unfold same_rounds. simpl.
  rewrite agent_rounds_app. simpl. lia.
Qed.

Lemma same_trace_rounds {A} (m : M A) :
  (forall w r w', m w = (r, w') -> trace w' = trace w) ->
  preserves same_rounds m.
Proof. intros H w r w' Hm. unfold same_rounds. now rewrite (H _ _ _ Hm). Qed.

Lemma engine_connect_rounds path :
  preserves same_rounds (engine_connect E path).
Proof. now intros w r w' [= <- <-]. Qed.

Lemma engine_execute_rounds sql :
  preserves same_rounds (engine_execute E sql).
Proof. now intros w r w' [= <- <-]. Qed.

Lemma engine_close_rounds : preserves same_rounds (engine_close E).
Proof. now intros w r w' [= <- <-]. Qed.

Lemma execute_sql_query_rounds sql :
  preserves same_rounds (execute_sql_query E sql).
Proof.
  unfold execute_sql_query, connect, cursor_execute, close, sql_handler.
  repeat preserves_step; try (apply emit_rounds; reflexivity);
    auto using engine_connect_rounds, engine_execute_rounds,
      engine_close_rounds.
Qed.

(** A call of generated code to the agent model is no round of the loop. *)
Lemma agent_rounds_code calls : agent_rounds (map EvCode calls) = 0.
Proof. induction calls as [|c calls IH]; [reflexivity | exact IH]. Qed.

Lemma generate_visualisation_rounds sr code :
  preserves same_rounds (generate_visualisation E sr code).
Proof.
  intros w r w' H. apply generate_visualisation_code_ran in H.
  destruct H as (_ & calls & Ht). unfold same_rounds.
  rewrite Ht, agent_rounds_app, agent_rounds_code. lia.
Qed.

Lemma viz_attempts_rounds sr n : forall ms last,
  preserves same_rounds (viz_attempts E n sr ms last).
Proof.
  induction n as [|n IH]; intros ms last; cbn [viz_attempts].
  - preserves_step.
  - repeat preserves_step;
      try apply chat_create_coder_rounds;
      try apply generate_visualisation_rounds.
    apply IH.
Qed.

Lemma execute_visualisation_code_rounds instr sr :
  preserves same_rounds (execute_visualisation_code E instr sr).
Proof.
  unfold execute_visualisation_code. preserves_step; [preserves_step|].
  apply viz_attempts_rounds.
Qed.

Lemma dispatch_rounds call t : preserves same_rounds (dispatch E call t).
Proof.
  unfold dispatch.
  repeat preserves_step;
    try apply execute_sql_query_rounds;
    try apply execute_visualisation_code_rounds.
Qed.

Lemma dispatch_all_rounds calls : forall t,
  preserves same_rounds (dispatch_all E calls t).
Proof.
  induction calls as [|call calls IH]; intros t; cbn [dispatch_all].
  - preserves_step.
  - preserves_step; [apply dispatch_rounds | apply IH].
Qed.

(** A run still going after [n] rounds has made exactly [n] round-trips to
    the agent model. *)
Lemma agent_loop_rounds n : forall t w t' w',
  agent_loop E n t w = (Running t', w') ->
  agent_rounds (trace w') = agent_rounds (trace w) + n.
Proof.
  induction n as [|n IH]; intros t w t' w' H; cbn [agent_loop] in H.
  - injection H as _ <-. lia.
  - rewrite chat_create_run in H.
    destruct (requested (chat E (trace w) AGENT_MODEL (messages t)))
      as [|c cs] eqn:Hreq.
    + now apply finish_running in H.
    + destruct (dispatch_all E (c :: cs) _ _) as [[t2|e] w2] eqn:Hd;
        [|discriminate].
      apply dispatch_all_rounds in Hd. unfold same_rounds in Hd.
      apply IH in H. rewrite H, Hd. simpl. rewrite agent_rounds_app. simpl. lia.
Qed.

End Rounds.

(** ** The order of identifiers

    Nothing the program does takes the counter of identifiers back, so a
    call made later in the process draws at a later position. *)

Section Draws.
Variable E : Env.

#[local] Instance later_draws_preorder : PreOrder later_draws.
Proof.
  split.
  - intros w. unfold later_draws. lia.
  - intros w1 w2 w3. unfold later_draws. lia.
Qed.

Lemma execute_sql_query_draws sql :
  preserves later_draws (execute_sql_query E sql).
Proof.
  intros w r w' H. pose proof (execute_sql_query_world E sql w) as Hu.
  rewrite H in Hu. unfold later_draws. simpl in Hu. lia.
Qed.

Lemma generate_visualisation_draws sr code :
  preserves later_draws (generate_visualisation E sr code).
Proof.
  intros w r w' H. apply generate_visualisation_code_ran in H.
  destruct H as (Hu & _). unfold later_draws. lia.
Qed.

Lemma chat_create_draws model ms :
  preserves later_draws (chat_create E model ms).
Proof. intros w r w' [= <- <-]. unfold later_draws. simpl. lia. Qed.

Lemma viz_attempts_draws sr n : forall ms last,
  preserves later_draws (viz_attempts E n sr ms last).
Proof.
  induction n as [|n IH]; intros ms last; cbn [viz_attempts].
  - preserves_step.
  - repeat preserves_step;
      try apply chat_create_draws;
      try apply generate_visualisation_draws.
    apply IH.
Qed.

Lemma dispatch_draws call t : preserves later_draws (dispatch E call t).
Proof.
  unfold dispatch, execute_visualisation_code.
  repeat preserves_step;
    try apply execute_sql_query_draws;
    try apply viz_attempts_draws.
Qed.

Lemma dispatch_all_draws calls : forall t,
  preserves later_draws (dispatch_all E calls t).
Proof.
  induction calls as [|call calls IH]; intros t; cbn [dispatch_all].
  - preserves_step.
  - preserves_step; [apply dispatch_draws | apply IH].
Qed.

Lemma agent_loop_draws n : forall t w,
  later_draws w (snd (agent_loop E n t w)).
Proof.
  induction n as [|n IH]; intros t w; cbn [agent_loop].
  - reflexivity.
  - rewrite chat_create_run.
    destruct (requested (chat E (trace w) AGENT_MODEL (messages t)))
      as [|c cs].
    + destruct (turn_output E _ _ _) as [r w1] eqn:Ho.
      apply turn_output_world in Ho. subst w1.
      destruct r; unfold later_draws; simpl; lia.
    + destruct (dispatch_all E (c :: cs) _ _) as [[t2|e] w2] eqn:Hd;
        apply dispatch_all_draws in Hd; unfold later_draws in *; simpl in *.
      * specialize (IH t2 w2). unfold later_draws in IH. lia.
      * lia.
Qed.

End Draws.

(** ** The Agent Loop *)

Section AgentLoop.
Variable E : Env.

Lemma subscript_sql_error m k :
  k <> "error" -> subscript (sql_error m) k = Raise (KeyError k).
Proof.
  intros Hk. unfold sql_error, subscript. simpl.
  destruct (String.eqb_spec k "error"); [contradiction | reflexivity].
Qed.

(** What a dispatch that does not raise leaves behind: the retained table
    is the one before or a new table, and while there is none the files
    stay as they are. *)
Lemma dispatch_inv call t w t' w' :
  dispatch E call t w = (Ret t', w') ->
  (results t' = results t \/ exists cols rows, results t' = sql_ok cols rows) /\
  (results t' = VNone -> fs w' = fs w).
Proof.
  unfold dispatch. intros H. invert_run.
  destruct (name_missing _).
  { invert_run. simpl. split; [now left | reflexivity]. }
  destruct (bool_decide _).
  { invert_run. simpl.
    match goal with
    | H : execute_sql_query _ ?q _ = _ |- _ =>
        apply execute_sql_query_ret in H;
        destruct H as [(m & ->) | (c & _ & _ & _ & _ & ->)]
    end.
    - match goal with
      | H : Ret _ = subscript (sql_error _) "result_df" |- _ =>
          rewrite subscript_sql_error in H by discriminate; discriminate
      end.
    - split; [right; eauto | discriminate]. }
  destruct (bool_decide _).
  { invert_run. simpl. split; [now left|]. intros Hn.
    match goal with
    | H : execute_visualisation_code _ ?i _ ?w0 = _ |- _ =>
        rewrite Hn in H;
        pose proof (execute_visualisation_code_None E i w0) as [Hfs _];
        rewrite H in Hfs; exact Hfs
    end. }
  invert_run. split; [now left | reflexivity].
Qed.

(** *** The loop and the machine *)

Lemma dispatch_all_steps calls : forall t w t' w',
  dispatch_all E calls t w = (Ret t', w') ->
  rtc (step E) (mkConfig t calls w) (mkConfig t' [] w').
Proof.
  induction calls as [|call calls IH]; intros t w t' w' H; cbn [dispatch_all] in H.
  - invert_run. apply rtc_refl.
  - invert_run. eapply rtc_l; [apply step_call; eassumption|]. now apply IH.
Qed.

Lemma dispatch_all_raises calls : forall t w e w',
  dispatch_all E calls t w = (Raise e, w') ->
  exists t1 w1 call rest,
    rtc (step E) (mkConfig t calls w) (mkConfig t1 (call :: rest) w1) /\
    dispatch E call t1 w1 = (Raise e, w').
Proof.
  induction calls as [|call calls IH]; intros t w e w' H; cbn [dispatch_all] in H.
  - invert_run.
  - apply bind_inv in H. destruct H as [(t2 & w2 & Hd & H) | (e' & Hd & [= <-])].
    + destruct (IH _ _ _ _ H) as (t1 & w1 & c & rest & Hr & Hc).
      exists t1, w1, c, rest. split; [|exact Hc].
      eapply rtc_l; [apply step_call; eassumption | exact Hr].
    + exists t, w, call, calls. split; [apply rtc_refl | exact Hd].
Qed.

(** A run still going after some rounds is a path of the machine. *)
Lemma agent_loop_steps n : forall t w t' w',
  agent_loop E n t w = (Running t', w') ->
  rtc (step E) (mkConfig t [] w) (mkConfig t' [] w').
Proof.
  induction n as [|n IH]; intros t w t' w' H; cbn [agent_loop] in H.
  - injection H as -> ->. apply rtc_refl.
  - rewrite chat_create_run in H.
    destruct (requested (chat E (trace w) AGENT_MODEL (messages t)))
      as [|c cs] eqn:Hreq.
    + now apply finish_running in H.
    + destruct (dispatch_all E (c :: cs) _ _) as [[t2|e] w2] eqn:Hd;
        [|discriminate].
      eapply rtc_l.
      { apply step_model. rewrite Hreq. discriminate. }
      cbv zeta. rewrite Hreq.
      eapply rtc_trans; [apply dispatch_all_steps; eassumption|].
      now apply IH.
Qed.

(** The loop returns only from the branch without tool calls. *)
Lemma agent_loop_returned n : forall t w out w',
  agent_loop E n t w = (Returned out, w') ->
  exists ms tr,
    trace w' = tr ++ [EvChat AGENT_MODEL ms] /\
    requested (chat E tr AGENT_MODEL ms) = [].
Proof.
  induction n as [|n IH]; intros t w out w' H; cbn [agent_loop] in H.
  - discriminate.
  - rewrite chat_create_run in H.
    destruct (requested (chat E (trace w) AGENT_MODEL (messages t)))
      as [|c cs] eqn:Hreq.
    + destruct (turn_output E _ _ _) as [r w1] eqn:Ho.
      apply turn_output_world in Ho. subst w1.
      destruct r; [|discriminate]. injection H as _ <-.
      exists (messages t), (trace w). split; [reflexivity | exact Hreq].
    + destruct (dispatch_all E (c :: cs) _ _) as [[t2|e] w2] eqn:Hd;
        [|discriminate].
      eapply IH; eassumption.
Qed.

(** Against a model that always asks for a tool, the loop is still going
    after any number of rounds, unless a dispatch has raised. *)
Lemma agent_loop_requests n : forall t w,
  (forall tr ms, requested (chat E tr AGENT_MODEL ms) <> []) ->
  (exists t', fst (agent_loop E n t w) = Running t') \/
  (exists e c call rest,
      fst (agent_loop E n t w) = Raised e /\
      rtc (step E) (mkConfig t [] w) c /\
      cfg_pending c = call :: rest /\
      fst (dispatch E call (cfg_turn c) (cfg_world c)) = Raise e).
Proof.
  induction n as [|n IH]; intros t w Hreq; cbn [agent_loop].
  - left. eauto.
  - rewrite chat_create_run.
    destruct (requested (chat E (trace w) AGENT_MODEL (messages t)))
      as [|c cs] eqn:Hr.
    { now apply Hreq in Hr. }
    assert (Hm : step E (mkConfig t [] w)
                   (mkConfig
                      (append (AssistantMsg
                                 (chat E (trace w) AGENT_MODEL (messages t))) t)
                      (c :: cs) (log (EvChat AGENT_MODEL (messages t)) w))).
    { rewrite <- Hr. apply step_model. rewrite Hr. discriminate. }
    destruct (dispatch_all E (c :: cs) _ _) as [[t2|e] w2] eqn:Hd.
    + destruct (IH t2 w2 Hreq) as [Hrun | (e & cf & call & rest & He & Hp & Hpen & Hdis)];
        [now left | right].
      exists e, cf, call, rest. repeat split; try assumption.
      eapply rtc_l; [exact Hm|].
      eapply rtc_trans; [apply dispatch_all_steps; eassumption | exact Hp].
    + right. apply dispatch_all_raises in Hd.
      destruct Hd as (t1 & w1 & call & rest & Hp & Hdis).
      exists e, (mkConfig t1 (call :: rest) w1), call, rest.
      repeat split.
      * eapply rtc_l; [exact Hm | exact Hp].
      * simpl. now rewrite Hdis.
Qed.

(** While no table is retained, no file has been written; and what is
    retained is a table, never an error. *)
Lemma reachable_results ui w0 c :
  reachable E ui w0 c ->
  (results (cfg_turn c) = VNone \/
   exists cols rows, results (cfg_turn c) = sql_ok cols rows) /\
  (results (cfg_turn c) = VNone -> fs (cfg_world c) = fs w0).
Proof.
  unfold reachable. revert c. apply rtc_ind_r.
  - simpl. split; [now left | reflexivity].
  - intros c1 c2 _ Hs [IH1 IH2]. destruct Hs as [t w msg Hreq | t call calls w t' w' Hd].
    + simpl in *. split; [exact IH1 | exact IH2].
    + simpl in *. apply dispatch_inv in Hd. destruct Hd as [Hres Hfs].
      split.
      * destruct Hres as [-> | Hres]; [exact IH1 | now right].
      * intros Hn. rewrite (Hfs Hn). apply IH2.
        destruct Hres as [<- | (cols & rows & Hres)]; [exact Hn|].
        rewrite Hres in Hn. discriminate.
Qed.

(** *** Dispatch of one call *)

Lemma requested_some m calls :
  msg_tool_calls m = Some calls -> requested m = calls.
Proof. unfold requested. now intros ->. Qed.

Lemma dispatch_unknown call f name args t w :
  call_function call = Some f ->
  fn_name f = Some name ->
  name <> "" ->
  name <> "execute_sql_query" ->
  name <> "execute_visualisation_code" ->
  json_loads E (fn_arguments f) = Ret args ->
  dispatch E call t w = (Ret t, w).
Proof.
  intros Hf Hn Hne Hsql Hviz Hargs. unfold dispatch. rewrite Hf, Hn, Hargs.
  erewrite bind_ret by reflexivity.
  unfold name_missing. destruct (String.eqb_spec name ""); [contradiction|].
  rewrite !bool_decide_eq_false_2 by congruence. reflexivity.
Qed.

Lemma dispatch_sql_error call f args q m t w w1 :
  call_function call = Some f ->
  fn_name f = Some "execute_sql_query" ->
  json_loads E (fn_arguments f) = Ret args ->
  py_get args "sql_query" = Ret q ->
  execute_sql_query E q w = (Ret (sql_error m), w1) ->
  dispatch E call t w = (Raise (KeyError "result_df"), w1).
Proof.
  intros Hf Hn Hargs Hq Hrun. unfold dispatch. rewrite Hf, Hn, Hargs.
  erewrite bind_ret by reflexivity. cbn [name_missing String.eqb].
  rewrite bool_decide_eq_true_2 by reflexivity.
  erewrite bind_ret by (unfold lift; rewrite Hq; reflexivity).
  erewrite bind_ret by exact Hrun.
  reflexivity.
Qed.

(** C1 (the defect).  When the first tool call of the first response is
    [execute_sql_query] and the Query Executor answers with an error (the
    input error or an execution error), [main_agent] does not come to a
    turn output: the line that reports the number of rows reads
    [results['result_df']] and raises [KeyError], which nothing catches. *)
Theorem main_agent_sql_error_raises ui w n id f rest args q m w1 :
  msg_tool_calls (chat E (trace w) AGENT_MODEL (messages (initial_turn E ui))) =
    Some ({| call_id := id; call_function := Some f |} :: rest) ->
  fn_name f = Some "execute_sql_query" ->
  json_loads E (fn_arguments f) = Ret args ->
  py_get args "sql_query" = Ret q ->
  execute_sql_query E q
      (log (EvChat AGENT_MODEL (messages (initial_turn E ui))) w) =
    (Ret (sql_error m), w1) ->
  main_agent E (S n) ui w = (Raised (KeyError "result_df"), w1).
Proof.
  intros Hcalls Hn Hargs Hq Hrun. unfold main_agent. cbn [agent_loop].
  rewrite chat_create_run. rewrite (requested_some _ _ Hcalls).
  cbn [dispatch_all].
  erewrite bind_raise; [reflexivity|].
  eapply dispatch_sql_error; eauto.
Qed.

(** C6 (the defect).  A call whose name is present but is neither of the two
    tools is passed over: [dispatch] returns the turn as it was, with no
    tool-result message appended for that call.  The turn goes on: after a
    response with such a call alone, the next round starts from the
    transcript with the response appended and nothing else. *)
Theorem dispatch_unknown_tool_silent call f name args t w n :
  call_function call = Some f ->
  fn_name f = Some name ->
  name <> "" ->
  name <> "execute_sql_query" ->
  name <> "execute_visualisation_code" ->
  json_loads E (fn_arguments f) = Ret args ->
  dispatch E call t w = (Ret t, w) /\
  (let msg := chat E (trace w) AGENT_MODEL (messages t) in
   requested msg = [call] ->
   agent_loop E (S n) t w =
     agent_loop E n (append (AssistantMsg msg) t)
       (log (EvChat AGENT_MODEL (messages t)) w)).
Proof.
  intros Hf Hn Hne Hsql Hviz Hargs.
  split; [now apply (dispatch_unknown call f name args)|].
  intros msg Hreq. cbn [agent_loop]. rewrite chat_create_run.
  fold msg. rewrite Hreq. cbn [dispatch_all].
  erewrite bind_ret by (now apply (dispatch_unknown call f name args)).
  reflexivity.
Qed.

(** C7.  In every state a turn can reach, the retained result is either
    absent or a table (never an error), and while it is absent no file has
    been written since the turn began.  In such a state every
    chart-generation attempt is a failure that leaves the files alone: it
    stops on [None["result_df"]] before any code runs.  So the
    visualization tool called there writes no file and cannot succeed; its
    outcome is that failure whenever the chart model sends text (when it
    sends none, [content.strip()] raises [AttributeError] and there is no
    outcome at all). *)
Theorem chart_only_after_query_result ui w0 c instr :
  reachable E ui w0 c ->
  let t := cfg_turn c in
  let w := cfg_world c in
  (results t = VNone \/ exists cols rows, results t = sql_ok cols rows) /\
  (results t = VNone ->
   fs w = fs w0 /\
   (forall code w1,
       generate_visualisation E (results t) code w1 =
         (Ret (viz_exception E NoneType_error),
          mkWorld (fs w1) (S (uuid_next w1)) (trace w1))) /\
   let out := execute_visualisation_code E instr (results t) w in
   fs (snd out) = fs w /\
   (fst out = Ret (viz_exception E NoneType_error) \/
    exists e, fst out = Raise e) /\
   ((forall tr ms, coder_answers E tr ms) ->
    fst out = Ret (viz_exception E NoneType_error)) /\
   subscript (viz_exception E NoneType_error) "success" = Ret (VBool false) /\
   py_get (viz_exception E NoneType_error) "fig_path" = Ret VNone).
Proof.
  intros Hr t w. destruct (reachable_results ui w0 c Hr) as [H1 H2].
  split; [exact H1|]. intros Hn. split; [now apply H2|].
  fold t in Hn. rewrite Hn. cbv zeta.
  split; [intros code w1; apply generate_visualisation_None|].
  destruct (execute_visualisation_code_None E instr w)
    as (Ha & _ & _ & Hb & Hc).
  repeat split; assumption || reflexivity.
Qed.

(** C8.  When the first response of the model carries no tool call,
    [main_agent] returns after that one round-trip (the call is the only
    event added to the trace) and both [result_df] and [visualisation] of
    the output are [None]. *)
Theorem main_agent_direct_answer ui w n :
  let ms := messages (initial_turn E ui) in
  let msg := chat E (trace w) AGENT_MODEL ms in
  requested msg = [] ->
  main_agent E (S n) ui w =
    (Returned (VDict [("insights", elided_insights E msg);
                      ("result_df", VNone); ("visualisation", VNone)]),
     log (EvChat AGENT_MODEL ms) w).
Proof.
  intros ms msg Hreq. unfold main_agent. cbn [agent_loop].
  rewrite chat_create_run. fold ms. fold msg. rewrite Hreq. reflexivity.
Qed.

(** C9 (as amended).  The loop has no bound of its own.  [main_agent]
    returns an output only right after a response without tool calls.
    Against a model that asks for a tool on every call it never returns:
    after any number [n] of rounds it is still going, having made [n]
    round-trips, unless the dispatch of some call has raised. *)
Theorem main_agent_unbounded ui w :
  (forall n out w',
      main_agent E n ui w = (Returned out, w') ->
      exists ms tr,
        trace w' = tr ++ [EvChat AGENT_MODEL ms] /\
        requested (chat E tr AGENT_MODEL ms) = []) /\
  ((forall tr ms, requested (chat E tr AGENT_MODEL ms) <> []) ->
   forall n,
     (exists t,
         fst (main_agent E n ui w) = Running t /\
         agent_rounds (trace (snd (main_agent E n ui w))) =
           agent_rounds (trace w) + n) \/
     (exists e c call rest,
         fst (main_agent E n ui w) = Raised e /\
         reachable E ui w c /\
         cfg_pending c = call :: rest /\
         fst (dispatch E call (cfg_turn c) (cfg_world c)) = Raise e)).
Proof.
  split.
  - intros n out w' H. eapply agent_loop_returned. exact H.
  - intros Hreq n. unfold main_agent, reachable.
    destruct (agent_loop_requests n (initial_turn E ui) w Hreq)
      as [(t & Ht) | Hraise]; [left | now right].
    exists t. split; [exact Ht|].
    destruct (agent_loop E n (initial_turn E ui) w) as [o w'] eqn:Hl.
    simpl in Ht. subst o. simpl. eapply agent_loop_rounds. exact Hl.
Qed.

End AgentLoop.

(** ** The scope of generated code *)

Lemma bind_ext {A B} (m1 m2 : M A) (k1 k2 : A -> M B) w :
  m1 w = m2 w ->
  (forall a w1, k1 a w1 = k2 a w1) ->
  bind m1 k1 w = bind m2 k2 w.
Proof.
  unfold bind. intros <- Hk. destruct (m1 w) as [[a|e] w1]; [apply Hk | reflexivity].
Qed.

Lemma lift_ext {A} (x y : res A) w : x = y -> lift x w = lift y w.
Proof. now intros ->. Qed.

(** C10 (as amended).  [generate_visualisation] hands the generated code to
    the interpreter with the locals [pd], [df], [px], [go] and with globals
    that hold [__builtins__] and nothing else: Python fills the empty dict
    it is given.  Nothing else of the interpreter is used: two interpreters
    that agree on such scopes give the same outcome and the same files.  The
    built-ins ([open], [__import__]) are in reach of the code; the scope is
    not a sandbox. *)
Theorem generated_code_scope E1 E2 sr code w :
  same_but_interpreter E1 E2 ->
  (forall df w0,
      py_run E1 (clean_code code) [("__builtins__", BUILTINS)] (local_ns df) w0 =
      py_run E2 (clean_code code) [("__builtins__", BUILTINS)] (local_ns df) w0) ->
  generate_visualisation E1 sr code w = generate_visualisation E2 sr code w /\
  exec_globals [] = [("__builtins__", BUILTINS)] /\
  (forall df, map fst (local_ns df) = ["pd"; "df"; "px"; "go"]).
Proof.
  intros (Hpd & Himg & Hjson & Hopen & Huuid & Hfmt) Hrun.
  split; [|split; reflexivity].
  assert (Htry : generate_visualisation_try E1 sr code w =
                 generate_visualisation_try E2 sr code w).
  { unfold generate_visualisation_try, generate_visualisation_body.
    apply bind_ext; [unfold uuid4; now rewrite Huuid|]. intros id wa.
    do 4 (apply bind_ext; [reflexivity|]; intros ? ?).
    apply bind_ext; [apply lift_ext, Hpd|]. intros df wb. cbv zeta.
    apply bind_ext.
    { unfold exec.
      change (exec_globals []) with [("__builtins__", BUILTINS)].
      now rewrite Hrun. }
    intros ns wc. destruct (is_None _); [reflexivity|].
    apply bind_ext; [apply lift_ext, Himg|]. intros img wd.
    apply bind_ext; [unfold open_w; now rewrite Hopen|]. intros _ we.
    apply bind_ext; [reflexivity|]. intros _ wf.
    apply bind_ext; [unfold open_w; now rewrite Hopen|]. intros _ wg.
    apply bind_ext; [apply lift_ext, Hjson|]. intros js wh.
    reflexivity. }
  unfold generate_visualisation, try_except. rewrite Htry.
  destruct (generate_visualisation_try E2 sr code w) as [[d|e] w1];
    [reflexivity|].
  destruct (exn_is_Exception e); [|reflexivity].
  rewrite !viz_handler_run. unfold viz_exception, viz_error.
  now rewrite Hfmt.
Qed.

(** * Runs on the scripted collaborators *)

(** ** The code as it runs *)

Example clean_code_fenced :
  clean_code ("```python" +:+ String "010" "fig = px.line(df)" +:+
              String "010" "```" +:+ String "010" "") = "fig = px.line(df)".
Proof. reflexivity. Qed.

Example str_replace_overlap : str_replace "aa" "b" "aaaaa" = "bba".
Proof. reflexivity. Qed.

(** A no-break space in front and a line separator and a space behind are
    stripped as the ASCII blanks are. *)
Example strip_unicode :
  strip (utf8 [194; 160] +:+ "fig = px.line(df)" +:+ utf8 [226; 128; 168; 32])
    = "fig = px.line(df)".
Proof. reflexivity. Qed.

Example py_len_characters : py_len (VStr "🔍 é") = Ret 3.
Proof. reflexivity. Qed.

(** The model counts the rows and answers: the output carries the table of
    the Query Executor and no chart. *)
Example count_scenario :
  fst (main_agent count_env 2 "What is the total number of rows?" w0) =
    Returned (VDict [("insights", VStr "The table has 1500 rows.");
                     ("result_df",
                      VDict [("columns", VList [VStr "count_star()"]);
                             ("rows", VList [VList [VInt 1500]])]);
                     ("visualisation", VNone)]).
Proof. vm_compute. reflexivity. Qed.

(** ** Query Executor *)

(** A statement that produces 1500 rows comes back with 1000. *)
Lemma execute_sql_query_row_cap_witness :
  exists c cols rows,
    fst (duckdb_execute quiet_env DB_PATH (VStr ALL_SQL)
           (snd (duckdb_connect quiet_env DB_PATH (fs w0)))) = Ret c /\
    rows = firstn 1000 (cur_rows c) /\
    sql_ok [VStr "resale_price"] (repeat (VList [VInt 500000]) 1000) =
      sql_ok cols rows /\
    length rows <= 1000 /\
    length rows = Nat.min 1000 (length (cur_rows c)) /\
    subscript (sql_ok [VStr "resale_price"] (repeat (VList [VInt 500000]) 1000))
      "error" = Raise (KeyError "error").
Proof.
  apply (execute_sql_query_row_cap quiet_env (VStr ALL_SQL) w0
           (sql_ok [VStr "resale_price"] (repeat (VList [VInt 500000]) 1000))
           (mkWorld ∅ 0 [EvConnect DB_PATH; EvExecute (VStr ALL_SQL); EvClose])
           (VDict [("columns", VList [VStr "resale_price"]);
                   ("rows", VList (repeat (VList [VInt 500000]) 1000))])).
  - vm_compute. reflexivity.
  - vm_compute. reflexivity.
Defined.

(** The missing argument, the empty string and a zero are answered with
    the input error; a statement of blanks is executed. *)
Lemma execute_sql_query_empty_witness :
  execute_sql_query quiet_env VNone w0 =
    (Ret (sql_error "No SQL query provided"), w0) /\
  execute_sql_query quiet_env (VStr "") w0 =
    (Ret (sql_error "No SQL query provided"), w0) /\
  execute_sql_query quiet_env (VOpaque "float" false) w0 =
    (Ret (sql_error "No SQL query provided"), w0) /\
  fst (execute_sql_query quiet_env (VStr "   ") w0) <>
    Ret (sql_error "No SQL query provided") /\
  exists rest,
    trace (snd (execute_sql_query quiet_env (VStr "   ") w0)) =
      trace w0 ++ EvConnect DB_PATH :: EvExecute (VStr "   ") :: rest.
Proof.
  split; [|split; [|split]].
  - apply (proj1 (execute_sql_query_empty quiet_env VNone w0)). reflexivity.
  - apply (proj1 (execute_sql_query_empty quiet_env (VStr "") w0)). reflexivity.
  - apply (proj1 (execute_sql_query_empty quiet_env (VOpaque "float" false) w0)).
    reflexivity.
  - destruct (proj2 (execute_sql_query_empty quiet_env (VStr "   ") w0) "   "
                eq_refl ltac:(discriminate))
      as (Hne & rest & Htr & Hexec & _).
    split; [exact Hne|].
    destruct (Hexec eq_refl) as (rest' & ->).
    exists rest'. exact Htr.
Defined.

(** C3, as stated, fails on a statement of blanks: it is not answered with
    the input error, and a connection is opened and the statement
    executed.  The engine has nothing to read afterwards: the answer is the
    error of [fetchmany], and the connection stays open. *)
Lemma whitespace_sql_reaches_engine :
  strip "   " = "" /\
  fst (execute_sql_query quiet_env (VStr "   ") w0) <>
    Ret (sql_error "No SQL query provided") /\
  firstn 2 (trace (snd (execute_sql_query quiet_env (VStr "   ") w0))) =
    [EvConnect DB_PATH; EvExecute (VStr "   ")] /\
  execute_sql_query quiet_env (VStr "   ") w0 =
    (Ret (sql_error
            "Error executing SQL query: Invalid Input Error: No open result set"),
     mkWorld ∅ 0 [EvConnect DB_PATH; EvExecute (VStr "   ")]).
Proof.
  split; [reflexivity|]. split; [|split; reflexivity].
  vm_compute. discriminate.
Qed.

(** ** Chart Generator *)






(** The scope of this run holds more than the four names injected, and the
    snippet uses it: C10, as stated, fails.  The code finds [open] through
    [__builtins__] and leaves a file of its own next to the artifacts;
    with globals that were empty it would stop on [NameError]. *)
Lemma generated_code_writes_files :
  dict_lookup "__builtins__" (exec_globals []) = Some BUILTINS /\
  ~ In "__builtins__" ["pd"; "df"; "px"; "go"] /\
  fst (generate_visualisation leaky_env demo_table LEAKY_CODE w0) =
    Ret (viz_success "id-0" LEAKY_CODE "visualisation_outputs/id-0_fig.json") /\
  fs (snd (generate_visualisation leaky_env demo_table LEAKY_CODE w0))
    !! "notes.txt" = Some "resale_price,500000" /\
  fst (fst (fst (leaky_run LEAKY_CODE [] (local_ns (VOpaque "DataFrame" true))
                   w0))) =
    Raise (mkExn true "NameError" "name 'open' is not defined" None).
Proof.
  split; [reflexivity|]. split.
  - intros [H | [H | [H | [H | []]]]]; discriminate.
  - repeat split; vm_compute; reflexivity.
Qed.

(** An interpreter that ignores its globals cannot be told from the
    scripted one. *)
Lemma generated_code_scope_witness :
  generate_visualisation quiet_env demo_table "fig = px.line(df)" w0 =
  generate_visualisation sealed_env demo_table "fig = px.line(df)" w0 /\
  exec_globals [] = [("__builtins__", BUILTINS)] /\
  (forall df, map fst (local_ns df) = ["pd"; "df"; "px"; "go"]).
Proof.
  apply (generated_code_scope quiet_env sealed_env demo_table
           "fig = px.line(df)" w0).
  - repeat split.
  - reflexivity.
Defined.

(** ** Agent Loop *)

(** The model asks for a statement the engine rejects: the turn ends in
    [KeyError: 'result_df']. *)
Lemma main_agent_sql_error_raises_witness :
  fst (execute_sql_query bad_sql_env (VStr BAD_SQL) w0) =
    Ret (sql_error
           "Error executing SQL query: Parser Error: syntax error at or near SELEC") /\
  main_agent bad_sql_env 1 QUESTION w0 =
    (Raised (KeyError "result_df"),
     mkWorld ∅ 0
       [EvChat AGENT_MODEL (messages (initial_turn bad_sql_env QUESTION));
        EvConnect DB_PATH; EvExecute (VStr BAD_SQL)]).
Proof.
  split; [vm_compute; reflexivity|].
  eapply (main_agent_sql_error_raises bad_sql_env QUESTION w0 0 "call_1"
            {| fn_name := Some "execute_sql_query";
               fn_arguments := sql_arguments BAD_SQL |} []
            (VDict [("sql_query", VStr BAD_SQL)]) (VStr BAD_SQL)).
  - reflexivity.
  - reflexivity.
  - vm_compute. reflexivity.
  - reflexivity.
  - vm_compute. reflexivity.
Defined.

(** The model asks for a tool that does not exist: the transcript gets no
    message for the call, and the next round sees the request alone. *)
Lemma dispatch_unknown_tool_silent_witness :
  let call := {| call_id := "call_1";
                 call_function := Some {| fn_name := Some "get_schema";
                                          fn_arguments := "{}" |} |} in
  let t := initial_turn unknown_tool_env QUESTION in
  dispatch unknown_tool_env call t w0 = (Ret t, w0) /\
  agent_loop unknown_tool_env 1 t w0 =
    (Running (append (AssistantMsg (asks_unknown_tool [])) t),
     log (EvChat AGENT_MODEL (messages t)) w0).
Proof.
  intros call t.
  destruct (dispatch_unknown_tool_silent unknown_tool_env call
              {| fn_name := Some "get_schema"; fn_arguments := "{}" |}
              "get_schema" (VDict []) t w0 0) as [Hd Hl];
    try reflexivity; try discriminate.
  split; [exact Hd|]. rewrite Hl; reflexivity.
Defined.

(** The model asks for a chart before any statement was run. *)
Lemma chart_only_after_query_result_witness :
  let c := mkConfig
             (append (AssistantMsg (asks_chart_first []))
                (initial_turn chart_first_env QUESTION))
             (requested (asks_chart_first []))
             (log (EvChat AGENT_MODEL
                     (messages (initial_turn chart_first_env QUESTION))) w0) in
  let out := execute_visualisation_code chart_first_env VNone VNone
               (cfg_world c) in
  reachable chart_first_env QUESTION w0 c /\
  fs (snd out) = ∅ /\
  fst out = Ret (viz_exception chart_first_env NoneType_error).
Proof.
  intros c out.
  assert (Hr : reachable chart_first_env QUESTION w0 c).
  { apply rtc_once.
    apply (step_model chart_first_env (initial_turn chart_first_env QUESTION) w0).
    discriminate. }
  destruct (chart_only_after_query_result chart_first_env QUESTION w0 c VNone Hr)
    as [_ H].
  destruct (H eq_refl) as (Hfs & _ & Hout & _ & Hans & _).
  split; [exact Hr|]. split.
  - exact (eq_trans Hout Hfs).
  - apply Hans. intros tr ms. eexists. reflexivity.
Defined.

(** The model answers at once. *)
Lemma main_agent_direct_answer_witness :
  main_agent quiet_env 1 QUESTION w0 =
    (Returned (VDict [("insights", VStr "The table has 1500 rows.");
                      ("result_df", VNone); ("visualisation", VNone)]),
     mkWorld ∅ 0
       [EvChat AGENT_MODEL (messages (initial_turn quiet_env QUESTION))]).
Proof.
  apply (main_agent_direct_answer quiet_env QUESTION w0 0). reflexivity.
Defined.

(** A model that asks for an unknown tool on every call keeps the loop
    going for ever. *)
Lemma unknown_tool_loop_runs n : forall t w,
  exists t', fst (agent_loop unknown_tool_env n t w) = Running t'.
Proof.
  induction n as [|n IH]; intros t w; cbn [agent_loop].
  - eauto.
  - rewrite chat_create_run.
    change (requested (chat unknown_tool_env (trace w) AGENT_MODEL (messages t)))
      with [{| call_id := "call_1";
               call_function := Some {| fn_name := Some "get_schema";
                                        fn_arguments := "{}" |} |}].
    cbn [dispatch_all].
    erewrite bind_ret.
    2:{ apply (dispatch_unknown unknown_tool_env _
                 {| fn_name := Some "get_schema"; fn_arguments := "{}" |}
                 "get_schema" (VDict [])); reflexivity || discriminate. }
    apply IH.
Qed.

Lemma main_agent_unbounded_witness :
  (exists t,
      fst (main_agent unknown_tool_env 5 QUESTION w0) = Running t /\
      agent_rounds (trace (snd (main_agent unknown_tool_env 5 QUESTION w0))) =
        agent_rounds (trace w0) + 5) \/
  (exists e c call rest,
      fst (main_agent unknown_tool_env 5 QUESTION w0) = Raised e /\
      reachable unknown_tool_env QUESTION w0 c /\
      cfg_pending c = call :: rest /\
      fst (dispatch unknown_tool_env call (cfg_turn c) (cfg_world c)) = Raise e).
Proof.
  apply (proj2 (main_agent_unbounded unknown_tool_env QUESTION w0)).
  intros tr ms. discriminate.
Defined.

(** C9, as stated, fails: this model asks for a tool on every call, with
    arguments that are not JSON, and the loop ends on the first round, in
    the exception of [json.loads]. *)
Lemma malformed_arguments_end_the_loop :
  (forall tr ms, requested (chat malformed_env tr AGENT_MODEL ms) <> []) /\
  (forall n,
      fst (main_agent malformed_env (S n) QUESTION w0) =
        Raised (mkExn true "JSONDecodeError"
                  "Expecting value: line 1 column 1 (char 0)" None)).
Proof.
  split.
  - intros tr ms. discriminate.
  - intros n. reflexivity.
Qed.

(** * Further properties of the tools *)

(** ** Query Executor: errors, connection, side effects *)

Section QueryExecutorEffects.
Variable E : Env.

(** X1.  No failure of the engine that derives from [Exception] leaves
    [execute_sql_query]: whether [connect], [execute] or [fetchmany] raises
    it, the call returns the dict
    [{"error": "Error executing SQL query: " + str(e)}].
    What the call can raise is only what [except Exception] lets through. *)
Theorem execute_sql_query_reports_errors sql w :
  let out := execute_sql_query E sql w in
  let con := duckdb_connect E DB_PATH (fs w) in
  let exe := duckdb_execute E DB_PATH sql (snd con) in
  (forall e, fst out = Raise e -> exn_is_Exception e = false) /\
  (forall e,
      truthy sql = true ->
      exn_is_Exception e = true ->
      fst con = Some e \/
      (fst con = None /\ fst exe = Raise e) \/
      (exists c, fst con = None /\ fst exe = Ret c /\ fetch_error c = Some e) ->
      fst out = Ret (sql_error ("Error executing SQL query: " +:+ exn_str e))).
Proof.
  cbv zeta. split.
  - intros e. destruct (truthy sql) eqn:Ht.
    + rewrite (execute_sql_query_run E sql w Ht). cbv zeta.
      destruct (fst (duckdb_connect E DB_PATH (fs w))) as [e1|].
      * simpl. destruct (exn_is_Exception e1) eqn:He1; [discriminate|].
        now intros [= <-].
      * destruct (fst (duckdb_execute E DB_PATH sql _)) as [c|e1]; simpl.
        -- destruct (fetch_error c) as [e1|]; simpl; [|discriminate].
           destruct (exn_is_Exception e1) eqn:He1; [discriminate|].
           now intros [= <-].
        -- destruct (exn_is_Exception e1) eqn:He1; [discriminate|].
           now intros [= <-].
    + rewrite execute_sql_query_falsy by assumption. discriminate.
  - intros e Ht He H. rewrite (execute_sql_query_run E sql w Ht). cbv zeta.
    destruct H as [-> | [[-> ->] | (c & -> & -> & ->)]]; simpl; now rewrite He.
Qed.

(** X2.  The connection a call opens is closed exactly when the call
    returns a table.  When [execute] raises, [conn.close()] is skipped: the
    call leaves its connection open. *)
Theorem execute_sql_query_closes_on_success sql w :
  let out := execute_sql_query E sql w in
  exists evs,
    trace (snd out) = trace w ++ evs /\
    (In EvClose evs <-> exists cols rows, fst out = Ret (sql_ok cols rows)) /\
    (truthy sql = true <-> In (EvConnect DB_PATH) evs).
Proof.
  cbv zeta. destruct (truthy sql) eqn:Ht.
  - rewrite (execute_sql_query_run E sql w Ht). cbv zeta.
    assert (Hcaught : forall (e : exn) cols rows,
               (if exn_is_Exception e
                then Ret (sql_error ("Error executing SQL query: " +:+ exn_str e))
                else Raise e) <> Ret (sql_ok cols rows)).
    { intros e cols rows. destruct (exn_is_Exception e); discriminate. }
    destruct (fst (duckdb_connect E DB_PATH (fs w))) as [e|].
    + exists [EvConnect DB_PATH]. simpl. split; [reflexivity|]. split.
      * split; [intros [H|[]]; discriminate|].
        intros (cols & rows & H). now apply Hcaught in H.
      * split; [now left | reflexivity].
    + destruct (fst (duckdb_execute E DB_PATH sql _)) as [c|e];
        [destruct (fetch_error c) as [e|]|].
      * exists [EvConnect DB_PATH; EvExecute sql]. simpl.
        split; [reflexivity|]. split.
        -- split; [intros [H|[H|[]]]; discriminate|].
           intros (cols & rows & H). now apply Hcaught in H.
        -- split; [now left | reflexivity].
      * exists [EvConnect DB_PATH; EvExecute sql; EvClose]. simpl.
        split; [reflexivity|]. split.
        -- split; [eauto | intros _; now right; right; left].
        -- split; [now left | reflexivity].
      * exists [EvConnect DB_PATH; EvExecute sql]. simpl.
        split; [reflexivity|]. split.
        -- split; [intros [H|[H|[]]]; discriminate|].
           intros (cols & rows & H). now apply Hcaught in H.
        -- split; [now left | reflexivity].
  - rewrite execute_sql_query_falsy by assumption. exists []. simpl.
    split; [now rewrite app_nil_r|]. split.
    + split; [intros [] | intros (cols & rows & H); discriminate].
    + split; [discriminate | intros []].
Qed.

(** X3.  [execute_sql_query] reaches nothing but the data source: it draws
    no identifier and calls no model, however it ends, and the calls it
    adds to the trace are its own calls to DuckDB.  It writes no file of its
    own: what changes on disk is the work of the engine, nothing on a
    falsy statement, and nothing when the engine writes no file. *)
Theorem execute_sql_query_only_data_source sql w :
  let out := execute_sql_query E sql w in
  uuid_next (snd out) = uuid_next w /\
  (exists evs,
      trace (snd out) = trace w ++ evs /\
      forallb is_own_db_event evs = true) /\
  (truthy sql = false -> fs (snd out) = fs w) /\
  (read_only_engine E -> fs (snd out) = fs w).
Proof. apply execute_sql_query_effects. Qed.

End QueryExecutorEffects.

(** ** Chart Generator: outcomes and files *)

Section ChartGeneratorFiles.
Variable E : Env.


(** X5.  A result without a table ([None], or the error dict of a failed
    statement) makes the call fail on [sql_result["result_df"]], before the
    code is cleaned or run: the failure carries that exception, and the
    files are as they were. *)
Theorem generate_visualisation_no_table sr code w e :
  subscript sr "result_df" = Raise e ->
  generate_visualisation E sr code w =
    (Ret (viz_exception E e), mkWorld (fs w) (S (uuid_next w)) (trace w)).
Proof.
  intros H. destruct (subscript_raises _ _ _ H) as [He Hs].
  rewrite generate_visualisation_unfold.
  unfold generate_visualisation_body. rewrite bind_lift, H.
  now rewrite He, Hs.
Qed.



End ChartGeneratorFiles.

(** ** Cleaning of the generated code *)

Lemma prefix_nil s : String.prefix "" s = true.
Proof. now destruct s. Qed.

Lemma prefix_cons a p b s :
  String.prefix (String a p) (String b s) =
    Ascii.eqb a b && String.prefix p s.
Proof.
  unfold String.prefix; fold String.prefix.
  destruct (ascii_dec a b) as [->|Hne].
  - now rewrite Ascii.eqb_refl.
  - apply Ascii.eqb_neq in Hne. now rewrite Hne.
Qed.

Lemma prefix_app p : forall a t,
  String.prefix p a = true -> String.prefix p (a +:+ t) = true.
Proof.
  induction p as [|c p IH]; intros a t H; [apply prefix_nil|].
  destruct a as [|b a]; [discriminate|].
  change (String b a +:+ t) with (String b (a +:+ t)).
  rewrite prefix_cons in *. apply andb_true_iff in H as [-> H].
  simpl. now apply IH.
Qed.

Lemma has_fence_app a : forall t,
  has_fence (a +:+ t) = false -> has_fence a = false.
Proof.
  induction a as [|c a IH]; intros t H; [reflexivity|].
  change (String c a +:+ t) with (String c (a +:+ t)) in H.
  cbn [has_fence] in *. apply orb_false_iff in H as [Hp Hf].
  apply orb_false_iff. split; [|now apply (IH t)].
  destruct (String.prefix "```" (String c a)) eqn:Hq; [|reflexivity].
  apply (prefix_app _ _ t) in Hq.
  change (String c a +:+ t) with (String c (a +:+ t)) in Hq. congruence.
Qed.

Lemma has_fence_app_r a : forall t,
  has_fence (a +:+ t) = false -> has_fence t = false.
Proof.
  induction a as [|c a IH]; intros t H; [exact H|].
  change (String c a +:+ t) with (String c (a +:+ t)) in H.
  cbn [has_fence] in H. apply orb_false_iff in H as [_ H]. now apply IH.
Qed.

(** *** Reversal *)

Lemma str_app_nil_r s : s +:+ "" = s.
Proof.
  induction s as [|c s IH]; [reflexivity|].
  change (String c s +:+ "") with (String c (s +:+ "")). now rewrite IH.
Qed.

Lemma str_app_assoc s1 s2 s3 : (s1 +:+ s2) +:+ s3 = s1 +:+ (s2 +:+ s3).
Proof.
  induction s1 as [|c s1 IH]; [reflexivity|].
  change ((String c s1 +:+ s2) +:+ s3) with (String c ((s1 +:+ s2) +:+ s3)).
  now rewrite IH.
Qed.

Lemma rev_app_app s1 : forall s2 s3,
  String.rev_app s1 (s2 +:+ s3) = String.rev_app s1 s2 +:+ s3.
Proof.
  induction s1 as [|c s1 IH]; intros s2 s3; [reflexivity|].
  cbn [String.rev_app].
  change (String c (s2 +:+ s3)) with (String c s2 +:+ s3). apply IH.
Qed.

Lemma rev_cons c s : String.rev (String c s) = String.rev s +:+ String c "".
Proof.
  unfold String.rev. cbn [String.rev_app].
  change (String c "") with ("" +:+ String c ""). apply rev_app_app.
Qed.

Lemma rev_app s1 s2 :
  String.rev (s1 +:+ s2) = String.rev s2 +:+ String.rev s1.
Proof.
  induction s1 as [|c s1 IH].
  - change ("" +:+ s2) with s2. now rewrite str_app_nil_r.
  - change (String c s1 +:+ s2) with (String c (s1 +:+ s2)).
    now rewrite !rev_cons, IH, str_app_assoc.
Qed.

Lemma rev_involutive s : String.rev (String.rev s) = s.
Proof.
  induction s as [|c s IH]; [reflexivity|].
  now rewrite rev_cons, rev_app, IH.
Qed.

(** *** Stripping *)

Lemma starts_with_cons p ws s :
  starts_with (p :: ws) s =
    if String.prefix p s then Some p else starts_with ws s.
Proof. reflexivity. Qed.

(** A string that starts with none of [ws] has no prefix that does. *)
Lemma starts_with_prefix ws : forall a b,
  starts_with ws (a +:+ b) = None -> starts_with ws a = None.
Proof.
  induction ws as [|p ws IH]; intros a b H; [reflexivity|].
  rewrite starts_with_cons in *.
  destruct (String.prefix p a) eqn:Hp.
  - now rewrite (prefix_app _ _ b Hp) in H.
  - destruct (String.prefix p (a +:+ b)); [discriminate|]. now apply (IH a b).
Qed.

Lemma drop_leading_suffix ws s : forall skip,
  exists a, s = a +:+ drop_leading ws s skip.
Proof.
  induction s as [|c s IH]; intros skip; [now exists ""|].
  cbn [drop_leading]. destruct skip as [|k].
  - destruct (starts_with ws (String c s)) as [p|].
    + destruct (IH (String.length p - 1)) as [a Ha].
      exists (String c a). change (String c a +:+ ?t) with (String c (a +:+ t)).
      now rewrite <- Ha.
    + now exists "".
  - destruct (IH k) as [a Ha].
    exists (String c a). change (String c a +:+ ?t) with (String c (a +:+ t)).
    now rewrite <- Ha.
Qed.

Lemma drop_leading_free ws s : forall skip,
  starts_with ws "" = None ->
  starts_with ws (drop_leading ws s skip) = None.
Proof.
  intros skip Hnil. revert skip.
  induction s as [|c s IH]; intros skip; [exact Hnil|].
  cbn [drop_leading]. destruct skip as [|k]; [|apply IH].
  destruct (starts_with ws (String c s)) as [p|] eqn:Hp; [apply IH | exact Hp].
Qed.

Lemma drop_leading_id ws s :
  starts_with ws s = None -> drop_leading ws s 0 = s.
Proof.
  intros H. destruct s as [|c s]; [reflexivity|].
  cbn [drop_leading]. now rewrite H.
Qed.

Lemma drop_leading_idem ws s :
  starts_with ws "" = None ->
  drop_leading ws (drop_leading ws s 0) 0 = drop_leading ws s 0.
Proof. intros H. apply drop_leading_id. now apply drop_leading_free. Qed.

Lemma lstrip_suffix s : exists a, s = a +:+ lstrip s.
Proof. apply drop_leading_suffix. Qed.

Lemma rstrip_prefix s : exists t, s = rstrip s +:+ t.
Proof.
  unfold rstrip.
  destruct (drop_leading_suffix (map String.rev WHITESPACE) (String.rev s) 0)
    as [a Ha].
  exists (String.rev a).
  rewrite <- rev_app, <- Ha. symmetry. apply rev_involutive.
Qed.

Lemma has_fence_strip s : has_fence s = false -> has_fence (strip s) = false.
Proof.
  intros H. unfold strip.
  destruct (lstrip_suffix s) as [a Ha]. rewrite Ha in H.
  apply has_fence_app_r in H.
  destruct (rstrip_prefix (lstrip s)) as [t Ht].
  rewrite Ht in H. now apply has_fence_app in H.
Qed.

Lemma replace_fence_cons c s :
  replace_from "```" "" (String c s) 0 =
    if String.prefix "```" (String c s)
    then replace_from "```" "" s 2
    else String c (replace_from "```" "" s 0).
Proof. reflexivity. Qed.

(** After [replace("```", "")] no fence is left, and the result starts
    with a backtick, or with two, only if the string did. *)
Lemma replace_fence_free n : forall s,
  String.length s < n ->
  has_fence (str_replace "```" "" s) = false /\
  (String.prefix "`" s = false ->
   String.prefix "`" (str_replace "```" "" s) = false) /\
  (String.prefix "``" s = false ->
   String.prefix "``" (str_replace "```" "" s) = false).
Proof.
  unfold str_replace.
  induction n as [|n IH]; intros s Hlen; [lia|].
  destruct s as [|c s]; [repeat split|].
  rewrite replace_fence_cons.
  destruct (String.prefix "```" (String c s)) eqn:Hp.
  - destruct s as [|b [|a t]]; try discriminate Hp.
    + rewrite prefix_cons in Hp. now rewrite andb_false_r in Hp.
    + rewrite !prefix_cons in Hp. now rewrite !andb_false_r in Hp.
    + rewrite !prefix_cons in Hp.
      apply andb_true_iff in Hp as [Hc Hp].
      apply andb_true_iff in Hp as [Hb _].
      change (replace_from "```" "" (String b (String a t)) 2)
        with (replace_from "```" "" t 0).
      destruct (IH t) as (Hf & _ & _); [simpl in *; lia|].
      split; [exact Hf|].
      rewrite !prefix_cons, Hc, ?Hb. split; discriminate.
  - destruct (IH s) as (Hf & H1 & H2); [simpl in *; lia|].
    split; [|split].
    + cbn [has_fence]. rewrite Hf, orb_false_r.
      rewrite prefix_cons in *.
      destruct (Ascii.eqb "`" c); [|reflexivity]. simpl in *.
      now apply H2.
    + rewrite !prefix_cons, !prefix_nil. tauto.
    + rewrite !prefix_cons.
      destruct (Ascii.eqb "`" c); [|reflexivity]. simpl. exact H1.
Qed.

Lemma rstrip_idem s : rstrip (rstrip s) = rstrip s.
Proof.
  unfold rstrip. rewrite rev_involutive.
  now rewrite drop_leading_idem by reflexivity.
Qed.

(** What is left after [lstrip] starts with no blank, and neither does what
    [rstrip] keeps of it. *)
Lemma lstrip_rstrip_lstrip s : lstrip (rstrip (lstrip s)) = rstrip (lstrip s).
Proof.
  apply drop_leading_id.
  destruct (rstrip_prefix (lstrip s)) as [t Ht].
  apply (starts_with_prefix _ _ t). rewrite <- Ht.
  now apply drop_leading_free.
Qed.

Lemma strip_idem s : strip (strip s) = strip s.
Proof. unfold strip. now rewrite lstrip_rstrip_lstrip, rstrip_idem. Qed.

Lemma clean_code_no_fence code : has_fence (clean_code code) = false.
Proof.
  unfold clean_code. apply has_fence_strip.
  eapply replace_fence_free. apply Nat.lt_succ_diag_r.
Qed.

(** X8.  The code that is run, and returned in the success dict, holds no
    markdown fence: whatever the model wraps around its answer, no run of
    three backticks is left after cleaning, and the cleaned code has at
    neither end a character that [str.strip()] removes, the blanks of
    Unicode included. *)
Theorem clean_code_fence_free code :
  has_fence (clean_code code) = false /\
  strip (clean_code code) = clean_code code /\
  starts_with WHITESPACE (clean_code code) = None /\
  starts_with (map String.rev WHITESPACE) (String.rev (clean_code code)) = None.
Proof.
  split; [apply clean_code_no_fence|].
  split; [unfold clean_code; apply strip_idem|].
  unfold clean_code, strip. split.
  - destruct (rstrip_prefix (lstrip (str_replace "```" ""
                                       (str_replace "```python" "" code))))
      as [t Ht].
    apply (starts_with_prefix _ _ t). rewrite <- Ht.
    now apply drop_leading_free.
  - unfold rstrip. rewrite rev_involutive. now apply drop_leading_free.
Qed.

Lemma prefix_app_l p q : forall s,
  String.prefix (p +:+ q) s = true -> String.prefix p s = true.
Proof.
  induction p as [|c p IH]; intros s H; [apply prefix_nil|].
  change (String c p +:+ q) with (String c (p +:+ q)) in H.
  destruct s as [|b s]; [discriminate|].
  rewrite prefix_cons in *. apply andb_true_iff in H as [-> H].
  simpl. now apply IH.
Qed.

Lemma replace_fence_id s :
  has_fence s = false -> str_replace "```" "" s = s.
Proof.
  unfold str_replace. induction s as [|c s IH]; intros H; [reflexivity|].
  cbn [has_fence] in H. apply orb_false_iff in H as [Hp Hf].
  rewrite replace_fence_cons, Hp. now rewrite IH.
Qed.

Lemma replace_python_fence_id s :
  has_fence s = false -> str_replace "```python" "" s = s.
Proof.
  unfold str_replace. induction s as [|c s IH]; intros H; [reflexivity|].
  cbn [has_fence] in H. apply orb_false_iff in H as [Hp Hf].
  change (replace_from "```python" "" (String c s) 0)
    with (if String.prefix "```python" (String c s)
          then replace_from "```python" "" s 8
          else String c (replace_from "```python" "" s 0)).
  destruct (String.prefix "```python" (String c s)) eqn:Hq.
  - apply (prefix_app_l "```" "python") in Hq. congruence.
  - now rewrite IH.
Qed.

(** X9.  Cleaning is idempotent: code that went through [clean_code], such
    as the [code] entry of a success dict, is left as it is when cleaned
    again. *)
Theorem clean_code_idempotent code :
  clean_code (clean_code code) = clean_code code.
Proof.
  pose proof (clean_code_no_fence code) as Hf.
  unfold clean_code at 1.
  rewrite (replace_python_fence_id _ Hf), (replace_fence_id _ Hf).
  unfold clean_code. apply strip_idem.
Qed.

(** ** Chart Generator: the retry loop *)

Section RetryLoop.
Variable E : Env.

Lemma coder_chats_app evs1 evs2 :
  List.filter is_coder_chat (evs1 ++ evs2) =
    List.filter is_coder_chat evs1 ++ List.filter is_coder_chat evs2.
Proof. apply List.filter_app. Qed.

Lemma coder_chats_code calls :
  List.filter is_coder_chat (map EvCode calls) = [].
Proof. induction calls as [|c calls IH]; [reflexivity | exact IH]. Qed.

Lemma own_or_code_code calls :
  forallb (fun ev => is_coder_chat ev || is_code_event ev) (map EvCode calls)
    = true.
Proof. induction calls as [|c calls IH]; [reflexivity | exact IH]. Qed.

(** What one attempt adds to the trace, however it ends. *)
Lemma attempt_events sr code ms w r w' :
  generate_visualisation E sr code (log (EvChat CODER_MODEL ms) w) = (r, w') ->
  uuid_next w <= uuid_next w' /\
  exists evs,
    trace w' = trace w ++ evs /\
    length (List.filter is_coder_chat evs) = 1 /\
    forallb (fun ev => is_coder_chat ev || is_code_event ev) evs = true.
Proof.
  intros H. apply generate_visualisation_code_ran in H.
  destruct H as (Hu & calls & Ht). cbn [log uuid_next trace] in Hu, Ht.
  split; [lia|]. exists (EvChat CODER_MODEL ms :: map EvCode calls).
  split; [rewrite Ht; now rewrite <- app_assoc|].
  split.
  - cbn [List.filter is_coder_chat]. rewrite String.eqb_refl.
    cbn [length]. now rewrite coder_chats_code.
  - cbn [forallb is_coder_chat]. rewrite String.eqb_refl.
    apply own_or_code_code.
Qed.

(** Every way the loop with [n] attempts left can end: of its own it asks
    the chart model, at most [n] times, and nothing else; and, when it
    returns, it returns the outcome of the last attempt made, a failure
    only after all [n]. *)
Lemma viz_attempts_ends sr n : forall ms last w r w',
  viz_attempts E n sr ms last w = (r, w') ->
  exists evs,
    trace w' = trace w ++ evs /\
    length (List.filter is_coder_chat evs) <= n /\
    forallb (fun ev => is_coder_chat ev || is_code_event ev) evs = true /\
    uuid_next w <= uuid_next w' /\
    forall d, r = Ret d ->
      (n = 0 /\ d = last /\ w' = w) \/
      (1 <= length (List.filter is_coder_chat evs) /\
       (exists code w1, generate_visualisation E sr code w1 = (Ret d, w')) /\
       (forall ok, subscript d "success" = Ret ok -> truthy ok = false ->
                   length (List.filter is_coder_chat evs) = n)).
Proof.
  induction n as [|n IH]; intros ms last w r w' H; cbn [viz_attempts] in H.
  - apply ret_inv in H as [-> ->]. exists []. rewrite app_nil_r.
    repeat split; try (simpl; lia). intros d [= <-]. now left.
  - erewrite bind_ret in H by apply chat_create_run.
    rewrite bind_lift in H.
    destruct (content_strip (chat E (trace w) CODER_MODEL ms)) as [code|e].
    2:{ injection H as <- <-. exists [EvChat CODER_MODEL ms].
        cbn [List.filter is_coder_chat forallb length log trace uuid_next].
        rewrite String.eqb_refl. cbn [length orb andb].
        repeat split; try lia. discriminate. }
    apply bind_inv in H.
    destruct H as [(d1 & w1 & Hg & H) | (e & Hg & ->)].
    2:{ apply attempt_events in Hg.
        destruct Hg as (Hu & evs & Ht & Hlen & Hall).
        exists evs. repeat split; try assumption; try lia. discriminate. }
    pose proof (attempt_events _ _ _ _ _ _ Hg) as (Hu & evs1 & Ht & Hlen & Hall).
    rewrite bind_lift in H.
    destruct (subscript d1 "success") as [ok|e] eqn:Hok.
    2:{ injection H as <- <-. exists evs1.
        repeat split; try assumption; try lia. discriminate. }
    destruct (truthy ok) eqn:Htr.
    + apply ret_inv in H as [-> ->].
      exists evs1. repeat split; try assumption; try lia.
      intros d [= <-]. right. split; [lia|]. split; [eauto|].
      intros ok' Hok'. rewrite Hok in Hok'. injection Hok' as <-. congruence.
    + rewrite bind_lift in H.
      destruct (subscript d1 "error") as [err|e].
      2:{ injection H as <- <-. exists evs1.
          repeat split; try assumption; try lia. discriminate. }
      apply IH in H. destruct H as (evs & Htr' & Hlen' & Hall' & Hun & Hret).
      exists (evs1 ++ evs).
      split; [rewrite Htr', Ht; now rewrite <- app_assoc|].
      rewrite coder_chats_app, length_app, Hlen.
      split; [lia|]. split; [rewrite forallb_app; now rewrite Hall, Hall'|].
      split; [lia|].
      intros d Hd. right.
      destruct (Hret d Hd) as [(-> & -> & ->) | (H1 & H2 & H3)].
      * split; [lia|]. split; [eauto|].
        intros ok' _ _. lia.
      * split; [lia|]. split; [exact H2|].
        intros ok' Hok' Hf. specialize (H3 ok' Hok' Hf). lia.
Qed.

(** X10.  Whatever the chart model answers and however the call ends,
    [execute_visualisation_code] of its own asks the chart model at most
    three times and nothing else: it makes no call to the agent model and
    none to the data source, and every other call recorded is one the
    generated code made.  The counter of identifiers does not go back. *)
Theorem execute_visualisation_code_bounded instr sr w :
  let out := execute_visualisation_code E instr sr w in
  exists evs,
    trace (snd out) = trace w ++ evs /\
    length (List.filter is_coder_chat evs) <= 3 /\
    forallb (fun ev => is_coder_chat ev || is_code_event ev) evs = true /\
    uuid_next w <= uuid_next (snd out).
Proof.
  cbv zeta. unfold execute_visualisation_code.
  rewrite bind_lift. destruct (dumps E (Some 2) sr) as [dumped|e].
  - destruct (viz_attempts E 3 sr _ VNone w) as [r w'] eqn:H.
    apply viz_attempts_ends in H.
    destruct H as (evs & H1 & H2 & H3 & H4 & _). exists evs. now simpl.
  - exists []. simpl. rewrite app_nil_r. repeat split; lia.
Qed.

(** X11.  What [execute_visualisation_code] returns is the outcome of the
    last attempt it made, after one to three calls of its own to the chart
    model; it returns a failure only when the third attempt has failed. *)
Theorem execute_visualisation_code_returns_last instr sr w d w' :
  execute_visualisation_code E instr sr w = (Ret d, w') ->
  exists evs,
    trace w' = trace w ++ evs /\
    1 <= length (List.filter is_coder_chat evs) <= 3 /\
    forallb (fun ev => is_coder_chat ev || is_code_event ev) evs = true /\
    (exists code w1, generate_visualisation E sr code w1 = (Ret d, w')) /\
    (subscript d "success" = Ret (VBool false) ->
     length (List.filter is_coder_chat evs) = 3).
Proof.
  unfold execute_visualisation_code. rewrite bind_lift.
  destruct (dumps E (Some 2) sr) as [dumped|e]; [|discriminate].
  intros H. apply viz_attempts_ends in H.
  destruct H as (evs & H1 & H2 & Hall & _ & Hret).
  destruct (Hret d eq_refl) as [(Hn & _) | (Hlen & Hgen & Hfail)];
    [discriminate|].
  exists evs. repeat split; try assumption.
  intros Hs. now apply (Hfail (VBool false)).
Qed.

End RetryLoop.

(** ** Agent Loop: what a dispatch touches *)

Section Confinement.
Variable E : Env.

#[local] Instance no_chart_work_preorder : PreOrder (no_chart_work E).
Proof.
  split.
  - intros w. now repeat split.
  - intros w1 w2 w3 (H1 & H2 & H3 & H4) (H5 & H6 & H7 & H8).
    repeat split; try congruence.
    intros Hro. now rewrite (H8 Hro), (H4 Hro).
Qed.

#[local] Instance no_data_access_preorder : PreOrder no_data_access.
Proof.
  split.
  - intros w. now repeat split.
  - intros w1 w2 w3 (H1 & H2 & H3) (H4 & H5 & H6). repeat split; congruence.
Qed.

Lemma db_events_app tr1 tr2 :
  db_events (tr1 ++ tr2) = db_events tr1 ++ db_events tr2.
Proof. apply List.filter_app. Qed.

Lemma code_events_app tr1 tr2 :
  code_events (tr1 ++ tr2) = code_events tr1 ++ code_events tr2.
Proof. apply List.filter_app. Qed.

Lemma own_db_events_filter evs :
  forallb is_own_db_event evs = true ->
  code_events evs = [] /\ List.filter is_coder_chat evs = [].
Proof.
  induction evs as [|ev evs IH]; [easy|]. cbn [forallb].
  intros H. apply andb_true_iff in H as [Hev H]. destruct (IH H) as [H1 H2].
  unfold code_events in *. cbn [List.filter].
  destruct ev; try discriminate; simpl; easy.
Qed.

Lemma chat_create_agent_no_chart_work ms :
  preserves (no_chart_work E) (chat_create E AGENT_MODEL ms).
Proof.
  intros w r w' [= <- <-]. unfold no_chart_work. cbn [log uuid_next trace fs].
  rewrite code_events_app, List.filter_app. simpl.
  now rewrite !app_nil_r.
Qed.

Lemma chat_create_no_data_access model ms :
  preserves no_data_access (chat_create E model ms).
Proof.
  intros w r w' [= <- <-]. unfold no_data_access. cbn [log uuid_next trace fs].
  rewrite code_events_app, db_events_app. simpl. now rewrite !app_nil_r.
Qed.

Lemma execute_sql_query_no_chart_work sql :
  preserves (no_chart_work E) (execute_sql_query E sql).
Proof.
  intros w r w' H.
  destruct (execute_sql_query_effects E sql w) as (Hu & (evs & Ht & Hall) & _ & Hf).
  rewrite H in Hu, Ht, Hf. simpl in Hu, Ht, Hf.
  destruct (own_db_events_filter evs Hall) as [Hc Hm].
  unfold no_chart_work. rewrite Ht, code_events_app, List.filter_app, Hc, Hm.
  now rewrite !app_nil_r.
Qed.

Lemma execute_visualisation_code_no_data_access instr :
  preserves no_data_access (execute_visualisation_code E instr VNone).
Proof.
  intros w r w' H.
  destruct (execute_visualisation_code_None E instr w) as (Hf & Hc & Hd & _).
  rewrite H in Hf, Hc, Hd. now repeat split.
Qed.

(** A call for another tool than the visualization tool runs no generated
    code, however it ends. *)
Lemma dispatch_no_chart_work call t :
  call_name call <> Some "execute_visualisation_code" ->
  preserves (no_chart_work E) (dispatch E call t).
Proof.
  intros Hn. unfold dispatch.
  change (match call_function call with
          | Some f => fn_name f
          | None => None
          end) with (call_name call).
  rewrite (bool_decide_eq_false_2 _ Hn).
  repeat preserves_step; apply execute_sql_query_no_chart_work.
Qed.

(** While no table is retained, a call for another tool than the query
    tool does not reach the data source, however it ends, and retains no
    table. *)
Lemma dispatch_no_data_access call t :
  call_name call <> Some "execute_sql_query" ->
  results t = VNone ->
  preserves no_data_access (dispatch E call t).
Proof.
  intros Hn Hres. unfold dispatch.
  change (match call_function call with
          | Some f => fn_name f
          | None => None
          end) with (call_name call).
  rewrite (bool_decide_eq_false_2 _ Hn), Hres.
  repeat preserves_step; apply execute_visualisation_code_no_data_access.
Qed.

Lemma dispatch_results call t w t' w' :
  call_name call <> Some "execute_sql_query" ->
  dispatch E call t w = (Ret t', w') ->
  results t' = results t.
Proof.
  intros Hn H. unfold dispatch in H.
  change (match call_function call with
          | Some f => fn_name f
          | None => None
          end) with (call_name call) in H.
  rewrite (bool_decide_eq_false_2 _ Hn) in H.
  invert_run.
  destruct (name_missing _); [now invert_run|].
  destruct (bool_decide _); now invert_run.
Qed.

Lemma dispatch_all_no_data_access calls : forall t w r w',
  Forall (fun call => call_name call <> Some "execute_sql_query") calls ->
  results t = VNone ->
  dispatch_all E calls t w = (r, w') ->
  no_data_access w w' /\ (forall t', r = Ret t' -> results t' = VNone).
Proof.
  induction calls as [|call calls IH]; intros t w r w' Hall Hres H;
    cbn [dispatch_all] in H.
  - apply ret_inv in H as [-> ->]. split; [reflexivity|].
    now intros t' [= <-].
  - inversion Hall as [|? ? Hcall Hrest]; subst.
    apply bind_inv in H.
    destruct H as [(t1 & w1 & Hd & H) | (e & Hd & ->)].
    + pose proof (dispatch_results _ _ _ _ _ Hcall Hd) as Hr1.
      apply (dispatch_no_data_access _ _ Hcall Hres) in Hd.
      destruct (IH t1 w1 r w' Hrest) as [Hw Hr]; [congruence | exact H |].
      split; [etransitivity; eassumption | exact Hr].
    + apply (dispatch_no_data_access _ _ Hcall Hres) in Hd.
      split; [exact Hd | discriminate].
Qed.

Lemma agent_loop_no_data_access n : forall t w,
  never_requests E "execute_sql_query" ->
  results t = VNone ->
  no_data_access w (snd (agent_loop E n t w)).
Proof.
  induction n as [|n IH]; intros t w Hnever Hres; cbn [agent_loop].
  - reflexivity.
  - rewrite chat_create_run.
    assert (Hchat : no_data_access w (log (EvChat AGENT_MODEL (messages t)) w)).
    { eapply (chat_create_no_data_access AGENT_MODEL (messages t)).
      apply chat_create_run. }
    destruct (requested (chat E (trace w) AGENT_MODEL (messages t)))
      as [|c cs] eqn:Hreq.
    + destruct (turn_output E _ _ _) as [r w1] eqn:Ho.
      apply turn_output_world in Ho. subst w1. now destruct r.
    + assert (Hall : Forall (fun call =>
                         call_name call <> Some "execute_sql_query") (c :: cs)).
      { apply Forall_forall. intros call Hin. eapply Hnever.
        rewrite Hreq. now apply list_elem_of_In. }
      destruct (dispatch_all E (c :: cs) _ _) as [[t2|e] w2] eqn:Hd;
        destruct (dispatch_all_no_data_access (c :: cs) _ _ _ _ Hall
                    (Hres : results (append _ t) = VNone) Hd) as [Hw Hr].
      * etransitivity; [exact Hchat|]. etransitivity; [exact Hw|].
        apply IH; [exact Hnever | now apply Hr].
      * simpl. etransitivity; eassumption.
Qed.

Lemma dispatch_all_no_chart_work calls : forall t,
  Forall (fun call => call_name call <> Some "execute_visualisation_code")
    calls ->
  preserves (no_chart_work E) (dispatch_all E calls t).
Proof.
  induction calls as [|call calls IH]; intros t Hall; cbn [dispatch_all].
  - preserves_step.
  - inversion Hall; subst.
    preserves_step; [now apply dispatch_no_chart_work | now apply IH].
Qed.

Lemma agent_loop_no_chart_work n : forall t w,
  never_requests E "execute_visualisation_code" ->
  no_chart_work E w (snd (agent_loop E n t w)).
Proof.
  induction n as [|n IH]; intros t w Hnever; cbn [agent_loop].
  - reflexivity.
  - rewrite chat_create_run.
    assert (Hchat : no_chart_work E w (log (EvChat AGENT_MODEL (messages t)) w)).
    { eapply (chat_create_agent_no_chart_work (messages t)).
      apply chat_create_run. }
    destruct (requested (chat E (trace w) AGENT_MODEL (messages t)))
      as [|c cs] eqn:Hreq.
    + destruct (turn_output E _ _ _) as [r w1] eqn:Ho.
      apply turn_output_world in Ho. subst w1. now destruct r.
    + assert (Hall : Forall (fun call =>
                         call_name call <> Some "execute_visualisation_code")
                       (c :: cs)).
      { apply Forall_forall. intros call Hin. eapply Hnever.
        rewrite Hreq. now apply list_elem_of_In. }
      destruct (dispatch_all E (c :: cs) _ _) as [[t2|e] w2] eqn:Hd;
        apply (dispatch_all_no_chart_work _ _ Hall) in Hd.
      * etransitivity; [exact Hchat|]. etransitivity; [exact Hd|].
        now apply IH.
      * simpl. etransitivity; eassumption.
Qed.

(** X12.  A turn in which the model never asks for the visualization tool
    runs no generated code, never calls the chart model and draws no
    identifier, whatever else it asks for and however the turn ends.  The
    files change by the work of the engine only, on the statements the
    model sends: with an engine that writes no file they are as they
    were. *)
Theorem main_agent_writes_only_charts n ui w :
  never_requests E "execute_visualisation_code" ->
  let w' := snd (main_agent E n ui w) in
  uuid_next w' = uuid_next w /\
  code_events (trace w') = code_events (trace w) /\
  List.filter is_coder_chat (trace w') = List.filter is_coder_chat (trace w) /\
  (read_only_engine E -> fs w' = fs w).
Proof.
  intros Hnever. unfold main_agent.
  now apply agent_loop_no_chart_work.
Qed.

(** X13.  A turn in which the model never asks for the query tool never
    reaches the data source: no connection is opened, whatever else the
    model asks for and however the turn ends.  No table is retained in
    such a turn, so that no generated code runs either, and no file is
    written. *)
Theorem main_agent_queries_only_on_request n ui w :
  never_requests E "execute_sql_query" ->
  db_events (trace (snd (main_agent E n ui w))) = db_events (trace w) /\
  code_events (trace (snd (main_agent E n ui w))) = code_events (trace w) /\
  fs (snd (main_agent E n ui w)) = fs w.
Proof.
  intros Hnever. unfold main_agent.
  now apply agent_loop_no_data_access.
Qed.

End Confinement.

(** ** Agent Loop: transcript and output *)

Section Transcript.
Variable E : Env.

(** A dispatch that does not raise appends nothing, or one tool message
    that carries the identifier of the call. *)
Lemma dispatch_messages call t w t' w' :
  dispatch E call t w = (Ret t', w') ->
  messages t' = messages t \/
  exists content, messages t' = messages t ++ [ToolMsg (call_id call) content].
Proof.
  unfold dispatch. intros H. invert_run.
  destruct (name_missing _); [invert_run; simpl; eauto|].
  destruct (bool_decide _); [invert_run; simpl; eauto|].
  destruct (bool_decide _); invert_run; simpl; eauto.
Qed.

(** X14.  Each tool call gets at most one tool-result message, with its own
    identifier, appended at the end of the transcript; the retained table
    changes only on a call to the query tool and the retained chart outcome
    only on a call to the visualization tool. *)
Theorem dispatch_answers_own_call call t w t' w' :
  dispatch E call t w = (Ret t', w') ->
  (messages t' = messages t \/
   exists content,
     messages t' = messages t ++ [ToolMsg (call_id call) content]) /\
  (call_name call <> Some "execute_sql_query" -> results t' = results t) /\
  (call_name call <> Some "execute_visualisation_code" ->
   viz_result t' = viz_result t).
Proof.
  intros H. split; [now apply dispatch_messages in H|].
  unfold dispatch in H.
  change (match call_function call with
          | Some f => fn_name f
          | None => None
          end) with (call_name call) in H.
  invert_run.
  destruct (name_missing _); [invert_run; now split|].
  destruct (bool_decide (call_name call = Some "execute_sql_query")) eqn:Hsql.
  { apply bool_decide_eq_true in Hsql. invert_run. simpl. split; [congruence|].
    reflexivity. }
  destruct (bool_decide (call_name call = Some "execute_visualisation_code"))
    eqn:Hviz.
  { apply bool_decide_eq_true in Hviz. invert_run. simpl.
    split; [reflexivity | congruence]. }
  invert_run. now split.
Qed.

(** X15.  The guard for a missing name.  With the function object present
    and arguments that parse, a call whose name is [None] or empty is
    answered with "Tool call missing name." and nothing is run.  The
    arguments are parsed before the name is looked at: a call without
    function object raises [AttributeError] in spite of the guard, and
    arguments that do not parse raise whatever the name is. *)
Theorem dispatch_missing_name call t w :
  (call_function call = None ->
   dispatch E call t w =
     (Raise (AttributeError "'NoneType' object has no attribute 'arguments'"),
      w)) /\
  (forall f e,
      call_function call = Some f ->
      json_loads E (fn_arguments f) = Raise e ->
      dispatch E call t w = (Raise e, w)) /\
  (forall f args,
      call_function call = Some f ->
      json_loads E (fn_arguments f) = Ret args ->
      name_missing (fn_name f) = true ->
      dispatch E call t w =
        (Ret (append (ToolMsg (call_id call) "Tool call missing name.") t), w)).
Proof.
  unfold dispatch. repeat split.
  - intros ->. reflexivity.
  - intros f e -> He. rewrite bind_lift, He. reflexivity.
  - intros f args -> Ha Hn. rewrite bind_lift, Ha, Hn. reflexivity.
Qed.

Lemma step_messages c c' :
  step E c c' ->
  exists suffix,
    messages (cfg_turn c') = messages (cfg_turn c) ++ suffix.
Proof.
  intros [t w msg Hreq | t call calls w t' w' Hd]; simpl.
  - eauto.
  - apply dispatch_messages in Hd. destruct Hd as [-> | (content & ->)].
    + exists []. now rewrite app_nil_r.
    + eauto.
Qed.

(** X16.  The transcript is append-only.  Whatever state a turn reaches,
    its transcript starts with the system prompt and the question of the
    user, and every step keeps the messages there are and adds at the
    end. *)
Theorem transcript_append_only ui w0 c :
  reachable E ui w0 c ->
  (exists suffix,
      messages (cfg_turn c) =
        [Msg "system" (system_prompt E); Msg "user" ui] ++ suffix) /\
  (forall c', rtc (step E) c c' ->
      exists suffix,
        messages (cfg_turn c') = messages (cfg_turn c) ++ suffix).
Proof.
  assert (Hrtc : forall c1 c2, rtc (step E) c1 c2 ->
            exists suffix,
              messages (cfg_turn c2) = messages (cfg_turn c1) ++ suffix).
  { intros c1 c2 H. induction H as [c1 | c1 c2 c3 Hs _ (s2 & IH)].
    - exists []. now rewrite app_nil_r.
    - apply step_messages in Hs. destruct Hs as (s1 & Hs).
      exists (s1 ++ s2). rewrite IH, Hs. now rewrite app_assoc. }
  intros Hr. split; [|apply Hrtc].
  apply Hrtc in Hr. exact Hr.
Qed.

(** Where the loop returns: a state the turn has reached, in which the
    model answers without tool calls. *)
Lemma agent_loop_returns_from n : forall t w out w',
  agent_loop E n t w = (Returned out, w') ->
  exists t0 w1,
    rtc (step E) (mkConfig t [] w) (mkConfig t0 [] w1) /\
    let msg := chat E (trace w1) AGENT_MODEL (messages t0) in
    requested msg = [] /\
    turn_output E msg (append (AssistantMsg msg) t0)
      (log (EvChat AGENT_MODEL (messages t0)) w1) = (Ret out, w').
Proof.
  induction n as [|n IH]; intros t w out w' H; cbn [agent_loop] in H.
  - discriminate.
  - rewrite chat_create_run in H.
    destruct (requested (chat E (trace w) AGENT_MODEL (messages t)))
      as [|c cs] eqn:Hreq.
    + exists t, w. split; [apply rtc_refl|]. cbv zeta. split; [exact Hreq|].
      destruct (turn_output E _ _ _) as [[v|e] w1]; [|discriminate].
      now injection H as -> ->.
    + destruct (dispatch_all E (c :: cs) _ _) as [[t2|e] w2] eqn:Hd;
        [|discriminate].
      destruct (IH _ _ _ _ H) as (t0 & w1 & Hp & Hout).
      exists t0, w1. split; [|exact Hout].
      eapply rtc_l.
      { apply step_model. rewrite Hreq. discriminate. }
      cbv zeta. rewrite Hreq.
      eapply rtc_trans; [apply dispatch_all_steps; eassumption | exact Hp].
Qed.

(** X17.  What [main_agent] returns is a dict with the three keys
    [insights], [result_df] and [visualisation], in this order.  Its
    [result_df] is [None] or is computed from a table that the Query
    Executor returned during the turn, never from an error; its
    [visualisation] is [None] when no chart outcome was retained. *)
Theorem main_agent_output_shape n ui w out w' :
  main_agent E n ui w = (Returned out, w') ->
  exists insights rdf vis t,
    out = VDict [("insights", insights); ("result_df", rdf);
                 ("visualisation", vis)] /\
    (exists w1, reachable E ui w (mkConfig t [] w1)) /\
    ((results t = VNone /\ rdf = VNone) \/
     (exists cols rows,
         results t = sql_ok cols rows /\
         elided_result_df E (sql_ok cols rows) = Ret rdf)) /\
    (viz_result t = VNone -> vis = VNone).
Proof.
  unfold main_agent. intros H. apply agent_loop_returns_from in H.
  destruct H as (t & w1 & Hp & _ & Hout). cbv zeta in Hout.
  unfold turn_output in Hout. invert_run.
  eexists _, _, _, t. split; [reflexivity|]. split; [eauto|].
  simpl in *. split.
  - destruct (reachable_results E ui w _ Hp) as [[Hn | (cols & rows & Hr)] _];
      simpl in *.
    + left. rewrite Hn in *. simpl in *. split; congruence.
    + right. exists cols, rows. rewrite Hr in *. simpl in *. split; congruence.
  - intros Hv. rewrite Hv in *. simpl in *. congruence.
Qed.

End Transcript.

(** * The page *)

Lemma page_bind_inv {A B} (m : Page A) (k : A -> Page B) p r p' :
  page_bind m k p = (r, p') ->
  (exists a p1, m p = (Ret a, p1) /\ k a p1 = (r, p')) \/
  (exists e, m p = (Raise e, p') /\ r = Raise e).
Proof.
  unfold page_bind. destruct (m p) as [[a|e] p1]; intros H.
  - left. eauto.
  - right. inversion H; subst. eauto.
Qed.

Lemma page_bind_lift {A B} (x : res A) (k : A -> Page B) p :
  page_bind (page_lift x) k p =
    match x with
    | Ret a => k a p
    | Raise e => (Raise e, p)
    end.
Proof. unfold page_bind, page_lift. now destruct x. Qed.

Lemma page_bind_st {B} (x : widget) (k : unit -> Page B) p :
  page_bind (st x) k p = k tt (p ++ [x]).
Proof. reflexivity. Qed.

(** A value that [get] finds and that is not [None] is a value of the
    dict. *)
Lemma py_get_subscript v k x :
  py_get v k = Ret x -> truthy x = true -> subscript v k = Ret x.
Proof.
  destruct v; simpl; try discriminate.
  destruct (dict_lookup k d) as [y|]; simpl; intros [= <-]; [reflexivity|].
  discriminate.
Qed.

Section PageSections.
Variable F : Front.

(** X18.  A page that is shown to the end has the insights first, then
    the chart, then the table: the heading and the escaped text of
    [insights], which is a string; the chart section exactly when
    [visualisation] is truthy, with the figure parsed from the file at that
    path; the table section exactly when [result_df] is truthy. *)
Theorem show_output_sections output files page0 page1 :
  show_output F output files page0 = (Ret tt, page1) ->
  exists s vis rdf chart data,
    subscript output "insights" = Ret (VStr s) /\
    py_get output "visualisation" = Ret vis /\
    subscript output "result_df" = Ret rdf /\
    page1 = page0 ++ [StSubheader "🔍 Insights"; StWrite (escape_text s)]
                  ++ chart ++ data /\
    (if truthy vis
     then exists content fig,
         read_file F files vis = Ret content /\
         pio_from_json F content = Ret fig /\
         chart = [StSubheader "📈 Visualisation"; StPlotlyChart fig true]
     else chart = []) /\
    (if truthy rdf
     then exists rows cols df,
         subscript rdf "rows" = Ret rows /\
         subscript rdf "columns" = Ret cols /\
         pd_DataFrame (agent_env F) rows cols = Ret df /\
         data = [StSubheader "📊 Data"; StDataframe df]
     else data = []).
Proof.
  unfold show_output. intros H.
  rewrite page_bind_st, page_bind_lift in H.
  destruct (subscript output "insights") as [ins|] eqn:Hins; [|discriminate].
  rewrite page_bind_lift in H.
  destruct ins; try discriminate H. cbn [escape_insights] in H.
  rewrite page_bind_st, page_bind_lift in H.
  destruct (py_get output "visualisation") as [vis|] eqn:Hvis; [|discriminate].
  apply page_bind_inv in H.
  destruct H as [([] & p1 & Hchart & H) | (e & _ & [=])].
  rewrite page_bind_lift in H.
  destruct (subscript output "result_df") as [rdf|] eqn:Hrdf; [|discriminate].
  assert (Hc : exists chart,
             p1 = (page0 ++ [StSubheader "🔍 Insights"])
                    ++ [StWrite (escape_text s)] ++ chart /\
             if truthy vis
             then exists content fig,
                 read_file F files vis = Ret content /\
                 pio_from_json F content = Ret fig /\
                 chart = [StSubheader "📈 Visualisation"; StPlotlyChart fig true]
             else chart = []).
  { destruct (truthy vis) eqn:Htv.
    - rewrite page_bind_st, page_bind_lift in Hchart.
      rewrite (py_get_subscript _ _ _ Hvis Htv) in Hchart.
      rewrite page_bind_lift in Hchart.
      destruct (read_file F files vis) as [content|]; [|discriminate].
      rewrite page_bind_lift in Hchart.
      destruct (pio_from_json F content) as [fig|] eqn:Hfig; [|discriminate].
      injection Hchart as <-.
      exists [StSubheader "📈 Visualisation"; StPlotlyChart fig true].
      split; [now rewrite <- !app_assoc | eauto].
    - injection Hchart as <-. exists []. now rewrite app_nil_r. }
  destruct Hc as (chart & -> & Hc).
  assert (Hd : exists data,
             page1 = ((page0 ++ [StSubheader "🔍 Insights"])
                        ++ [StWrite (escape_text s)] ++ chart) ++ data /\
             if truthy rdf
             then exists rows cols df,
                 subscript rdf "rows" = Ret rows /\
                 subscript rdf "columns" = Ret cols /\
                 pd_DataFrame (agent_env F) rows cols = Ret df /\
                 data = [StSubheader "📊 Data"; StDataframe df]
             else data = []).
  { destruct (truthy rdf) eqn:Htr.
    - rewrite page_bind_lift in H. rewrite page_bind_lift in H.
      destruct (subscript rdf "rows") as [rows|]; [|discriminate].
      rewrite page_bind_lift in H. rewrite page_bind_lift in H.
      destruct (subscript rdf "columns") as [cols|]; [|discriminate].
      rewrite page_bind_lift in H.
      destruct (pd_DataFrame (agent_env F) rows cols) as [df|] eqn:Hdf;
        [|discriminate].
      rewrite page_bind_st in H. injection H as <-.
      exists [StSubheader "📊 Data"; StDataframe df].
      split; [now rewrite <- !app_assoc | eauto 8].
    - injection H as <-. exists []. now rewrite app_nil_r. }
  destruct Hd as (data & -> & Hd).
  exists s, vis, rdf, chart, data. repeat split; try assumption.
  now rewrite <- !app_assoc.
Qed.

(** X19.  A chart path that names no file stops the page: [open] raises
    [FileNotFoundError] after the insights and the chart heading are on the
    page, and the table is not shown, whatever [result_df] holds. *)
Theorem show_output_missing_chart_file output files page0 s p :
  subscript output "insights" = Ret (VStr s) ->
  py_get output "visualisation" = Ret (VStr p) ->
  p <> "" ->
  files !! p = None ->
  show_output F output files page0 =
    (Raise (FileNotFoundError p),
     page0 ++ [StSubheader "🔍 Insights"; StWrite (escape_text s);
               StSubheader "📈 Visualisation"]).
Proof.
  intros Hins Hvis Hp Hfile.
  assert (Ht : truthy (VStr p) = true).
  { simpl. now destruct (String.eqb_spec p ""). }
  unfold show_output.
  rewrite page_bind_st, page_bind_lift, Hins.
  rewrite page_bind_lift. cbn [escape_insights].
  rewrite page_bind_st, page_bind_lift, Hvis. rewrite Ht.
  unfold page_bind at 1.
  rewrite page_bind_st, page_bind_lift.
  rewrite (py_get_subscript _ _ _ Hvis Ht).
  rewrite page_bind_lift. cbn [read_file]. rewrite Hfile.
  now rewrite <- !app_assoc.
Qed.

End PageSections.

(** ** From the chart on disk to the chart on the page *)


Section RoundTrip.
Variable F : Front.


(** X21.  A direct answer on the page.  When the button is pressed and
    the first response of the model carries no tool call, the script makes
    that one round-trip and shows, under the header and the spinner, the
    insights and nothing else: no chart, no table. *)
Theorem app_direct_answer typed w n s :
  let E := agent_env F in
  let ms := messages (initial_turn E typed) in
  let msg := chat E (trace w) AGENT_MODEL ms in
  requested msg = [] ->
  elided_insights E msg = VStr s ->
  app F typed true (S n) w =
    (Shown, log (EvChat AGENT_MODEL ms) w,
     HEADER ++ [StSpinner "Thinking..."; StSubheader "🔍 Insights";
                StWrite (escape_text s)]).
Proof.
  intros E ms msg Hreq Hins. unfold app, main_agent. cbn [agent_loop].
  rewrite chat_create_run. fold E ms msg. rewrite Hreq.
  unfold turn_output. rewrite Hins. reflexivity.
Qed.

End RoundTrip.

(** ** The text of the insights *)

Lemma dollars_after_cons b c s :
  dollars_after b (String c s) =
    (if Ascii.eqb c "$" then b else true) && dollars_after (Ascii.eqb c "\") s.
Proof. reflexivity. Qed.

Lemma replace_dollar_cons c s :
  replace_from "$" "\$" (String c s) 0 =
    if Ascii.eqb "$" c
    then String "\" (String "$" (replace_from "$" "\$" s 0))
    else String c (replace_from "$" "\$" s 0).
Proof.
  change (replace_from "$" "\$" (String c s) 0)
    with (if String.prefix "$" (String c s)
          then String "\" (String "$" (replace_from "$" "\$" s 0))
          else String c (replace_from "$" "\$" s 0)).
  now rewrite prefix_cons, prefix_nil, andb_true_r.
Qed.

Lemma replace_dollar_escapes s b :
  dollars_after b (replace_from "$" "\$" s 0) = true.
Proof.
  revert b. induction s as [|c s IH]; intros b; [reflexivity|].
  rewrite replace_dollar_cons.
  destruct (Ascii.eqb "$" c) eqn:Hc.
  - rewrite !dollars_after_cons.
    change (Ascii.eqb "\" "$") with false.
    change (Ascii.eqb "\" "\") with true.
    change (Ascii.eqb "$" "$") with true.
    change (Ascii.eqb "$" "\") with false.
    cbv iota. now rewrite IH.
  - rewrite dollars_after_cons, Ascii.eqb_sym, Hc, IH. reflexivity.
Qed.

Lemma replace_newline_cons c s :
  replace_from "\n" NEWLINE (String c s) 0 =
    if String.prefix "\n" (String c s)
    then String "010" (replace_from "\n" NEWLINE s 1)
    else String c (replace_from "\n" NEWLINE s 0).
Proof. reflexivity. Qed.

Lemma replace_newline_keeps n :
  forall s b,
    (String.length s <= n)%nat ->
    dollars_after b s = true ->
    dollars_after b (replace_from "\n" NEWLINE s 0) = true.
Proof.
  induction n as [|n IH]; intros s b Hn H.
  - destruct s; [reflexivity | simpl in Hn; lia].
  - destruct s as [|c s]; [reflexivity|].
    rewrite replace_newline_cons.
    destruct (String.prefix "\n" (String c s)) eqn:Hp.
    + destruct s as [|c' s]; [now rewrite prefix_cons, andb_false_r in Hp|].
      rewrite !prefix_cons, prefix_nil, andb_true_r in Hp.
      apply andb_true_iff in Hp. destruct Hp as [Hc Hc'].
      apply Ascii.eqb_eq in Hc, Hc'. subst c c'.
      change (replace_from "\n" NEWLINE (String "n" s) 1)
        with (replace_from "\n" NEWLINE s 0).
      rewrite !dollars_after_cons in H.
      change (Ascii.eqb "n" "\") with false in H.
      change (Ascii.eqb "n" "$") with false in H.
      change (Ascii.eqb "\" "$") with false in H.
      cbv iota in H. rewrite !andb_true_l in H.
      rewrite dollars_after_cons.
      change (Ascii.eqb "010" "$") with false.
      change (Ascii.eqb "010" "\") with false.
      cbv iota. rewrite andb_true_l.
      apply IH; [simpl in Hn; lia | assumption].
    + rewrite dollars_after_cons in H |- *.
      apply andb_true_iff in H. destruct H as [-> H].
      rewrite andb_true_l. apply IH; [simpl in Hn; lia | assumption].
Qed.

(** X22.  In the text that is written under the insights every dollar
    sign comes right after a backslash, whatever the model answered:
    turning backslash-n into line breaks afterwards takes none of these
    backslashes away. *)
Theorem escape_text_escapes_dollars s :
  dollars_escaped (escape_text s) = true.
Proof.
  unfold dollars_escaped, escape_text, str_replace.
  apply (replace_newline_keeps _ _ _ (le_n _)).
  apply replace_dollar_escapes.
Qed.

(** * Further runs on the scripted collaborators *)

(** ** Query Executor *)

(** The engine rejects the statement: the error comes back as a dict. *)
Lemma execute_sql_query_reports_errors_witness :
  fst (execute_sql_query quiet_env (VStr BAD_SQL) w0) =
    Ret (sql_error
           ("Error executing SQL query: " +:+
            "Parser Error: syntax error at or near SELEC")).
Proof.
  apply (proj2 (execute_sql_query_reports_errors quiet_env (VStr BAD_SQL) w0)
           (mkExn true "ParserException"
              "Parser Error: syntax error at or near SELEC" None)).
  - reflexivity.
  - reflexivity.
  - right. left. split; reflexivity.
Defined.

(** On the scripted engine, which writes no file, a statement leaves the
    files as they are. *)
Lemma execute_sql_query_only_data_source_witness :
  fs (snd (execute_sql_query quiet_env (VStr COUNT_SQL) w0)) = fs w0.
Proof.
  apply (execute_sql_query_only_data_source quiet_env (VStr COUNT_SQL) w0).
  now repeat split.
Defined.

(** A statement that succeeds closes its connection; one that the engine
    rejects does not. *)
Lemma execute_sql_query_closes_on_success_witness :
  (exists evs,
      trace (snd (execute_sql_query quiet_env (VStr COUNT_SQL) w0)) =
        trace w0 ++ evs /\
      In EvClose evs /\ In (EvConnect DB_PATH) evs) /\
  (exists evs,
      trace (snd (execute_sql_query quiet_env (VStr BAD_SQL) w0)) =
        trace w0 ++ evs /\
      ~ In EvClose evs /\ In (EvConnect DB_PATH) evs).
Proof.
  split.
  - destruct (execute_sql_query_closes_on_success quiet_env (VStr COUNT_SQL) w0)
      as (evs & Htr & Hclose & Hconn).
    exists evs. split; [exact Htr|]. split.
    + apply Hclose. eexists. eexists. vm_compute. reflexivity.
    + apply Hconn. reflexivity.
  - destruct (execute_sql_query_closes_on_success quiet_env (VStr BAD_SQL) w0)
      as (evs & Htr & Hclose & Hconn).
    exists evs. split; [exact Htr|]. split.
    + intros Hin. apply Hclose in Hin. destruct Hin as (cols & rows & Hin).
      vm_compute in Hin. discriminate Hin.
    + apply Hconn. reflexivity.
Defined.

(** ** Chart Generator *)


(** Code that asks the chart model and draws an identifier of its own: the
    call is in the trace as a call of the code, and the counter has moved
    by two. *)
Example busy_code_is_recorded :
  generate_visualisation busy_env demo_table BUSY_CODE w0 =
    (Ret (viz_success "id-0" BUSY_CODE "visualisation_outputs/id-0_fig.json"),
     mkWorld
       (<["visualisation_outputs/id-0_fig.json" := "{...}"]>
          (<["visualisation_outputs/id-0.png" := "PNG"]> ∅))
       2 [EvCode (EvChat CODER_MODEL [])]).
Proof. vm_compute. reflexivity. Qed.

(** The error dict of a failed statement has no table to draw from. *)
Lemma generate_visualisation_no_table_witness :
  generate_visualisation quiet_env (sql_error "Error executing SQL query: x")
    "fig = px.line(df)" w0 =
    (Ret (viz_exception quiet_env (KeyError "result_df")), mkWorld ∅ 1 []).
Proof.
  apply (generate_visualisation_no_table quiet_env
           (sql_error "Error executing SQL query: x") "fig = px.line(df)" w0
           (KeyError "result_df")).
  reflexivity.
Defined.



(** The first answer of the chart model draws the chart. *)
Lemma execute_visualisation_code_returns_last_witness :
  exists d w' evs,
    execute_visualisation_code chart_first_env (VStr "a line chart")
      demo_table w0 = (Ret d, w') /\
    trace w' = trace w0 ++ evs /\
    1 <= length (List.filter is_coder_chat evs) <= 3 /\
    (subscript d "success" = Ret (VBool false) ->
     length (List.filter is_coder_chat evs) = 3).
Proof.
  assert (H : exists d w',
             execute_visualisation_code chart_first_env (VStr "a line chart")
               demo_table w0 = (Ret d, w')).
  { eexists. eexists. vm_compute. reflexivity. }
  destruct H as (d & w' & H).
  destruct (execute_visualisation_code_returns_last chart_first_env
              (VStr "a line chart") demo_table w0 d w' H)
    as (evs & Htr & Hlen & _ & _ & Hfail).
  exists d, w', evs. repeat split; try assumption; apply Hlen.
Defined.

(** ** Agent Loop *)

Lemma count_env_never_draws :
  never_requests count_env "execute_visualisation_code".
Proof.
  intros tr ms call H.
  change (chat count_env tr AGENT_MODEL ms) with (asks_count_once ms) in H.
  unfold asks_count_once in H.
  destruct (length ms <=? 2)%nat; [|destruct H].
  destruct H as [<- | []]. discriminate.
Qed.

Lemma chart_first_env_never_queries :
  never_requests chart_first_env "execute_sql_query".
Proof.
  intros tr ms call H.
  change (chat chart_first_env tr AGENT_MODEL ms) with (asks_chart_first ms)
    in H.
  destruct H as [<- | []]. discriminate.
Qed.

Lemma main_agent_writes_only_charts_witness :
  let w' := snd (main_agent count_env 2 QUESTION w0) in
  uuid_next w' = uuid_next w0 /\
  code_events (trace w') = code_events (trace w0) /\
  List.filter is_coder_chat (trace w') = List.filter is_coder_chat (trace w0) /\
  fs w' = fs w0.
Proof.
  intros w'.
  destruct (main_agent_writes_only_charts count_env 2 QUESTION w0
              count_env_never_draws) as (Hu & Hc & Hm & Hf).
  split; [exact Hu|]. split; [exact Hc|]. split; [exact Hm|].
  apply Hf. now repeat split.
Defined.

Lemma main_agent_queries_only_on_request_witness :
  db_events (trace (snd (main_agent chart_first_env 2 QUESTION w0))) =
    db_events (trace w0) /\
  code_events (trace (snd (main_agent chart_first_env 2 QUESTION w0))) =
    code_events (trace w0) /\
  fs (snd (main_agent chart_first_env 2 QUESTION w0)) = fs w0.
Proof.
  apply (main_agent_queries_only_on_request chart_first_env 2 QUESTION w0).
  apply chart_first_env_never_queries.
Defined.

Lemma dispatch_answers_own_call_witness :
  let t := initial_turn count_env QUESTION in
  exists t' w',
    dispatch count_env count_call t w0 = (Ret t', w') /\
    (messages t' = messages t \/
     exists content, messages t' = messages t ++ [ToolMsg "call_1" content]) /\
    viz_result t' = viz_result t.
Proof.
  intros t.
  assert (H : exists t' w',
             dispatch count_env count_call t w0 = (Ret t', w')).
  { eexists. eexists. vm_compute. reflexivity. }
  destruct H as (t' & w' & H).
  destruct (dispatch_answers_own_call count_env count_call t w0 t' w' H)
    as (Hm & _ & Hv).
  exists t', w'. split; [exact H|]. split; [exact Hm|].
  apply Hv. discriminate.
Defined.

Lemma dispatch_missing_name_witness :
  let t := initial_turn quiet_env QUESTION in
  dispatch quiet_env nameless_call t w0 =
    (Ret (append (ToolMsg "call_1" "Tool call missing name.") t), w0).
Proof.
  intros t.
  apply (proj2 (proj2 (dispatch_missing_name quiet_env nameless_call t w0))
           {| fn_name := None; fn_arguments := "{}" |} (VDict []));
    reflexivity.
Defined.

(** The transcript after the first response of [unknown_tool_env]. *)
Lemma transcript_append_only_witness :
  let t := initial_turn unknown_tool_env QUESTION in
  let msg := chat unknown_tool_env (trace w0) AGENT_MODEL (messages t) in
  exists suffix,
    messages (append (AssistantMsg msg) t) =
      [Msg "system" (system_prompt unknown_tool_env); Msg "user" QUESTION]
        ++ suffix.
Proof.
  intros t msg.
  apply (proj1 (transcript_append_only unknown_tool_env QUESTION w0
                  (mkConfig (append (AssistantMsg msg) t) (requested msg)
                     (log (EvChat AGENT_MODEL (messages t)) w0))
                  (rtc_once _ _
                     (step_model unknown_tool_env t w0
                        ltac:(discriminate))))).
Defined.

Lemma main_agent_output_shape_witness :
  exists out w' insights rdf vis,
    main_agent count_env 2 QUESTION w0 = (Returned out, w') /\
    out = VDict [("insights", insights); ("result_df", rdf);
                 ("visualisation", vis)] /\
    vis = VNone.
Proof.
  assert (H : exists out w',
             main_agent count_env 2 QUESTION w0 = (Returned out, w') /\
             py_get out "visualisation" = Ret VNone).
  { eexists. eexists. split; vm_compute; reflexivity. }
  destruct H as (out & w' & H & Hvis).
  destruct (main_agent_output_shape count_env 2 QUESTION w0 out w' H)
    as (insights & rdf & vis & t & -> & _ & _ & _).
  exists (VDict [("insights", insights); ("result_df", rdf);
                 ("visualisation", vis)]), w', insights, rdf, vis.
  split; [exact H|]. split; [reflexivity|].
  now injection Hvis.
Defined.

(** ** The page *)

Lemma show_output_sections_witness :
  exists page1 s chart data,
    show_output (demo_front quiet_env) chart_output chart_files [] =
      (Ret tt, page1) /\
    page1 = [] ++ [StSubheader "🔍 Insights"; StWrite (escape_text s)]
               ++ chart ++ data /\
    length chart = 2 /\ length data = 2.
Proof.
  assert (H : exists page1,
             show_output (demo_front quiet_env) chart_output chart_files [] =
               (Ret tt, page1)).
  { eexists. vm_compute. reflexivity. }
  destruct H as (page1 & H).
  destruct (show_output_sections (demo_front quiet_env) chart_output
              chart_files [] page1 H)
    as (s & vis & rdf & chart & data & _ & Hvis & Hrdf & Hpage & Hc & Hd).
  injection Hvis as <-. injection Hrdf as <-.
  destruct Hc as (content & fig & _ & _ & ->).
  destruct Hd as (rows & cols & df & _ & _ & _ & ->).
  exists page1, s, [StSubheader "📈 Visualisation"; StPlotlyChart fig true],
    [StSubheader "📊 Data"; StDataframe df].
  split; [exact H|]. split; [exact Hpage|].
  split; reflexivity.
Defined.

(** The chart of the output was never written. *)
Lemma show_output_missing_chart_file_witness :
  show_output (demo_front quiet_env) chart_output ∅ [] =
    (Raise (FileNotFoundError CHART_PATH),
     [] ++ [StSubheader "🔍 Insights";
            StWrite (escape_text "Prices rose by $50k.\nSee the chart.");
            StSubheader "📈 Visualisation"]).
Proof.
  apply (show_output_missing_chart_file (demo_front quiet_env) chart_output
           ∅ [] "Prices rose by $50k.\nSee the chart." CHART_PATH).
  - reflexivity.
  - reflexivity.
  - discriminate.
  - reflexivity.
Defined.


Lemma app_direct_answer_witness :
  app (demo_front quiet_env) QUESTION true 1 w0 =
    (Shown,
     log (EvChat AGENT_MODEL (messages (initial_turn quiet_env QUESTION))) w0,
     HEADER ++ [StSpinner "Thinking..."; StSubheader "🔍 Insights";
                StWrite (escape_text "The table has 1500 rows.")]).
Proof.
  apply (app_direct_answer (demo_front quiet_env) QUESTION w0 0
           "The table has 1500 rows."); reflexivity.
Defined.
